(** * Lexical retrieval index of the GenAI demo ([RAGDemo] in genai_demo.py)

    The index stores a list of documents, fits a TF-IDF vectorizer on them
    and answers a query with the documents of highest cosine similarity.

    [RAGDemo.add_documents] and [RAGDemo.search_documents] are embedded as
    state-passing functions on a record of the object's three fields.  A
    Python exception is a [Raise] result; a call that raises still returns
    the state it had reached, because the field assignments made before the
    exception stay in the object.

    The library calls of the two methods are embedded by what the libraries
    compute: scikit-learn's [TfidfVectorizer(stop_words='english')] with its
    default parameters, [cosine_similarity], and numpy's [argsort], slicing
    and reversal.  Texts are ASCII strings.  Scores are real numbers, the
    values the libraries compute up to the rounding of their 64-bit floats;
    module [Binary64] runs the same numeric steps on the floats themselves,
    for corpora whose idf weights are exact. *)

From Stdlib Require Import List String Ascii Bool Arith ZArith Lia.
From Stdlib Require Import Reals Lra Permutation Sorted.
From Stdlib Require Import QArith.
From Stdlib Require Decimal DecimalNat DecimalString.
From Stdlib Require Floats.PrimFloat Uint63.
Import ListNotations.

Local Open Scope string_scope.
Local Open Scope list_scope.
Local Open Scope nat_scope.

(** ** Results of calls that may raise *)

Inductive exn : Type :=
| ValueError      (* empty vocabulary, or arrays of incompatible shape *)
| NotFittedError  (* transform before a successful fit *)
| IndexError.     (* list index out of range *)

Inductive result (A : Type) : Type :=
| Ok (a : A)
| Raise (e : exn).

Arguments Ok {A} a.
Arguments Raise {A} e.

Definition bind {A B : Type} (r : result A) (k : A -> result B) : result B :=
  match r with
  | Ok a => k a
  | Raise e => Raise e
  end.

Notation "x <- r ;; k" := (bind r (fun x => k))
  (at level 61, r at next level, right associativity).

(** ** Text analysis of the vectorizer *)

Module Text.

(** [str.lower] on ASCII letters. *)
Definition lower_ascii (c : ascii) : ascii :=
  let n := nat_of_ascii c in
  if (65 <=? n) && (n <=? 90) then ascii_of_nat (n + 32) else c.

Fixpoint lower (s : string) : string :=
  match s with
  | EmptyString => EmptyString
  | String c s' => String (lower_ascii c) (lower s')
  end.

(** The class [\w] on ASCII: letters, digits and the underscore. *)
Definition is_word_char (c : ascii) : bool :=
  let n := nat_of_ascii c in
  ((48 <=? n) && (n <=? 57)) || ((65 <=? n) && (n <=? 90))
  || ((97 <=? n) && (n <=? 122)) || (n =? 95).

(** A finished run of word characters is a token when it has two
    characters or more (the pattern is [\b\w\w+\b]). *)
Definition emit (run : string) : list string :=
  if 2 <=? String.length run then [run] else [].

(** [re.findall] of the token pattern: the maximal runs of word characters
    of length two or more, left to right.  [run] is the run being read. *)
Fixpoint word_runs (s : string) (run : string) : list string :=
  match s with
  | EmptyString => emit run
  | String c s' =>
      if is_word_char c then word_runs s' (run ++ String c EmptyString)
      else emit run ++ word_runs s' EmptyString
  end.

(** scikit-learn's [ENGLISH_STOP_WORDS]. *)
Definition ENGLISH_STOP_WORDS : list string :=
  [ "a"; "about"; "above"; "across"; "after"; "afterwards"; "again";
    "against"; "all"; "almost"; "alone"; "along"; "already"; "also";
    "although"; "always"; "am"; "among"; "amongst"; "amoungst"; "amount";
    "an"; "and"; "another"; "any"; "anyhow"; "anyone"; "anything"; "anyway";
    "anywhere"; "are"; "around"; "as"; "at"; "back"; "be"; "became";
    "because"; "become"; "becomes"; "becoming"; "been"; "before";
    "beforehand"; "behind"; "being"; "below"; "beside"; "besides";
    "between"; "beyond"; "bill"; "both"; "bottom"; "but"; "by"; "call";
    "can"; "cannot"; "cant"; "co"; "con"; "could"; "couldnt"; "cry"; "de";
    "describe"; "detail"; "do"; "done"; "down"; "due"; "during"; "each";
    "eg"; "eight"; "either"; "eleven"; "else"; "elsewhere"; "empty";
    "enough"; "etc"; "even"; "ever"; "every"; "everyone"; "everything";
    "everywhere"; "except"; "few"; "fifteen"; "fifty"; "fill"; "find";
    "fire"; "first"; "five"; "for"; "former"; "formerly"; "forty"; "found";
    "four"; "from"; "front"; "full"; "further"; "get"; "give"; "go"; "had";
    "has"; "hasnt"; "have"; "he"; "hence"; "her"; "here"; "hereafter";
    "hereby"; "herein"; "hereupon"; "hers"; "herself"; "him"; "himself";
    "his"; "how"; "however"; "hundred"; "i"; "ie"; "if"; "in"; "inc";
    "indeed"; "interest"; "into"; "is"; "it"; "its"; "itself"; "keep";
    "last"; "latter"; "latterly"; "least"; "less"; "ltd"; "made"; "many";
    "may"; "me"; "meanwhile"; "might"; "mill"; "mine"; "more"; "moreover";
    "most"; "mostly"; "move"; "much"; "must"; "my"; "myself"; "name";
    "namely"; "neither"; "never"; "nevertheless"; "next"; "nine"; "no";
    "nobody"; "none"; "noone"; "nor"; "not"; "nothing"; "now"; "nowhere";
    "of"; "off"; "often"; "on"; "once"; "one"; "only"; "onto"; "or";
    "other"; "others"; "otherwise"; "our"; "ours"; "ourselves"; "out";
    "over"; "own"; "part"; "per"; "perhaps"; "please"; "put"; "rather";
    "re"; "same"; "see"; "seem"; "seemed"; "seeming"; "seems"; "serious";
    "several"; "she"; "should"; "show"; "side"; "since"; "sincere"; "six";
    "sixty"; "so"; "some"; "somehow"; "someone"; "something"; "sometime";
    "sometimes"; "somewhere"; "still"; "such"; "system"; "take"; "ten";
    "than"; "that"; "the"; "their"; "them"; "themselves"; "then"; "thence";
    "there"; "thereafter"; "thereby"; "therefore"; "therein"; "thereupon";
    "these"; "they"; "thick"; "thin"; "third"; "this"; "those"; "though";
    "three"; "through"; "throughout"; "thru"; "thus"; "to"; "together";
    "too"; "top"; "toward"; "towards"; "twelve"; "twenty"; "two"; "un";
    "under"; "until"; "up"; "upon"; "us"; "very"; "via"; "was"; "we";
    "well"; "were"; "what"; "whatever"; "when"; "whence"; "whenever";
    "where"; "whereafter"; "whereas"; "whereby"; "wherein"; "whereupon";
    "wherever"; "whether"; "which"; "while"; "whither"; "who"; "whoever";
    "whole"; "whom"; "whose"; "why"; "will"; "with"; "within"; "without";
    "would"; "yet"; "you"; "your"; "yours"; "yourself"; "yourselves" ].

Definition is_stop_word (t : string) : bool :=
  existsb (String.eqb t) ENGLISH_STOP_WORDS.

(** The analyzer: lower-case, tokenize, drop the stop words. *)
Definition analyze (doc : string) : list string :=
  filter (fun t => negb (is_stop_word t)) (word_runs (lower doc) EmptyString).

(** Sorted insertion without duplicates: the fitted vocabulary lists its
    terms in increasing string order, a term's column being its position. *)
Fixpoint insert_term (t : string) (v : list string) : list string :=
  match v with
  | [] => [t]
  | u :: v' =>
      match String.compare t u with
      | Lt => t :: u :: v'
      | Eq => u :: v'
      | Gt => u :: insert_term t v'
      end
  end.

Definition build_vocabulary (docs : list string) : list string :=
  fold_left (fun v doc => fold_left (fun v' t => insert_term t v') (analyze doc) v)
            docs [].

(** One row of the term-count matrix. *)
Definition count_row (vocab : list string) (doc : string) : list nat :=
  map (count_occ string_dec (analyze doc)) vocab.

(** Document frequency of every column. *)
Definition document_frequency (vocab : list string) (docs : list string) : list nat :=
  map (fun t => List.length (filter (fun doc => 0 <? count_occ string_dec (analyze doc) t) docs))
      vocab.

End Text.

(** ** TF-IDF weighting and cosine similarity *)

Module Tfidf.

Local Open Scope R_scope.

(** Smoothed inverse document frequency, [ln((1 + n) / (1 + df)) + 1]. *)
Definition idf (n_samples df : nat) : R :=
  ln ((1 + INR n_samples) / (1 + INR df)) + 1.

Definition dot (u v : list R) : R :=
  fold_right Rplus 0 (map (fun p => fst p * snd p) (combine u v)).

Definition sum_squares (v : list R) : R :=
  fold_right Rplus 0 (map (fun x => x * x) v).

(** Row normalisation to unit Euclidean length; a row whose squares sum
    to zero is left as it is. *)
Definition normalize (v : list R) : list R :=
  if Req_dec_T (sum_squares v) 0 then v
  else map (fun x => x / sqrt (sum_squares v)) v.

(** Term counts scaled by the fitted idf of their column. *)
Definition weigh (idfs : list R) (counts : list nat) : list R :=
  map (fun p => INR (fst p) * snd p) (combine counts idfs).

Definition tfidf_row (vocab : list string) (idfs : list R) (doc : string) : list R :=
  normalize (weigh idfs (Text.count_row vocab doc)).

(** The fitted attributes of a [TfidfVectorizer]: [None] until a fit has
    set them. *)
Record TfidfVectorizer : Type := {
  vocabulary_ : option (list string);
  idf_ : option (list R)
}.

Definition unfitted : TfidfVectorizer :=
  {| vocabulary_ := None; idf_ := None |}.

(** [fit_transform]: a fresh idf transformer replaces the previous one,
    then the vocabulary is counted; an empty vocabulary raises before any
    fitted attribute is stored.  On success the vocabulary and the idf
    vector are stored and the weighted, normalised rows are returned. *)
Definition fit_transform (vz : TfidfVectorizer) (raw_documents : list string)
  : TfidfVectorizer * result (list (list R)) :=
  match Text.build_vocabulary raw_documents with
  | [] => ({| vocabulary_ := vocabulary_ vz; idf_ := None |}, Raise ValueError)
  | t :: ts =>
      let vocab := t :: ts in
      let idfs := map (idf (List.length raw_documents))
                      (Text.document_frequency vocab raw_documents) in
      ({| vocabulary_ := Some vocab; idf_ := Some idfs |},
       Ok (map (tfidf_row vocab idfs) raw_documents))
  end.

(** [transform]: terms outside the fitted vocabulary have no column and
    are dropped by [Text.count_row]. *)
Definition transform (vz : TfidfVectorizer) (raw_documents : list string)
  : result (list (list R)) :=
  match vocabulary_ vz, idf_ vz with
  | Some vocab, Some idfs => Ok (map (tfidf_row vocab idfs) raw_documents)
  | _, _ => Raise NotFittedError
  end.

Definition same_width (X Y : list (list R)) : bool :=
  forallb (fun x => forallb (fun y => List.length x =? List.length y)%nat Y) X.

(** [cosine_similarity(X, Y)]: both arguments are normalised by row and
    multiplied; entry (i, j) is the dot product of row i of [X] and row j
    of [Y].  Arrays whose rows differ in width are refused. *)
Definition cosine_similarity (X Y : list (list R)) : result (list (list R)) :=
  if same_width X Y
  then Ok (map (fun x => map (fun y => dot (normalize x) (normalize y)) Y) X)
  else Raise ValueError.

(** [ndarray.flatten] of a two-dimensional array, row by row. *)
Definition flatten (K : list (list R)) : list R := List.concat K.

End Tfidf.

(** ** Array operations of the ranking *)

Module Numpy.

Definition Rltb (x y : R) : bool := if Rlt_dec x y then true else false.

(** One step of insertion sort on indices: [i] goes before the first index
    whose value is strictly greater than the value at [i]. *)
Fixpoint insert_index (a : list R) (i : nat) (sorted : list nat) : list nat :=
  match sorted with
  | [] => [i]
  | j :: rest =>
      if Rltb (nth i a 0%R) (nth j a 0%R) then i :: j :: rest
      else j :: insert_index a i rest
  end.

(** [a.argsort()]: the indices of [a] in increasing order of value.  numpy
    promises no more than that: its default sort is not stable, and where
    it leaves equal values depends on the length of the array and on the
    build.  The embedding is an insertion sort, one of the orders numpy
    may return; it agrees with numpy wherever the values are distinct.
    The properties below rest on the order of the values and on the
    result being a permutation, not on where equal values end up; the one
    exception is the search on [tie_corpus], an array of two equal scores,
    which numpy returns as [0, 1]. *)
Definition argsort (a : list R) : list nat :=
  fold_left (fun sorted i => insert_index a i sorted) (seq 0 (List.length a)) [].

(** The slice [l[start:]] for any integer [start]: a negative start counts
    from the end, and both ends are clamped to the list. *)
Definition slice_from {A : Type} (start : Z) (l : list A) : list A :=
  let n := Z.of_nat (List.length l) in
  let s := if (start <? 0)%Z then Z.max (start + n) 0 else Z.min start n in
  skipn (Z.to_nat s) l.

(** The slice [l[::-1]]. *)
Definition reversed {A : Type} (l : list A) : list A := rev l.

End Numpy.

(** ** The retrieval index *)

Record SearchResult : Type := {
  document : string;
  similarity_score : R;
  rank : nat
}.

Record RAGDemo : Type := {
  documents : list string;
  vectorizer : Tfidf.TfidfVectorizer;
  document_vectors : option (list (list R))
}.

Definition __init__ : RAGDemo :=
  {| documents := []; vectorizer := Tfidf.unfitted; document_vectors := None |}.

(** [add_documents]: the documents are stored first, then the vectorizer
    is fitted; when the fit raises, the stored documents stay and the
    document vectors are those of before the call. *)
Definition add_documents (self : RAGDemo) (docs : list string) : RAGDemo * result unit :=
  let (vz, r) := Tfidf.fit_transform (vectorizer self) docs in
  match r with
  | Ok X =>
      ({| documents := docs; vectorizer := vz; document_vectors := Some X |}, Ok tt)
  | Raise e =>
      ({| documents := docs; vectorizer := vz;
          document_vectors := document_vectors self |}, Raise e)
  end.

(** [similarities.argsort()[-top_k:][::-1]] *)
Definition top_indices (similarities : list R) (top_k : Z) : list nat :=
  Numpy.reversed (Numpy.slice_from (- top_k) (Numpy.argsort similarities)).

(** The loop that builds the result list; [results] is the list so far. *)
Fixpoint append_results (docs : list string) (similarities : list R)
    (indices : list nat) (results : list SearchResult) : result (list SearchResult) :=
  match indices with
  | [] => Ok results
  | idx :: rest =>
      match nth_error docs idx, nth_error similarities idx with
      | Some d, Some s =>
          append_results docs similarities rest
            (results ++ [{| document := d; similarity_score := s;
                            rank := List.length results + 1 |}])
      | _, _ => Raise IndexError
      end
  end.

(** The similarity of the query to every document vector. *)
Definition query_similarities (self : RAGDemo) (query : string) : result (list R) :=
  query_vector <- Tfidf.transform (vectorizer self) [query] ;;
  match document_vectors self with
  | None => Raise ValueError
  | Some X =>
      K <- Tfidf.cosine_similarity query_vector X ;;
      Ok (Tfidf.flatten K)
  end.

Definition search_documents (self : RAGDemo) (query : string) (top_k : Z)
  : result (list SearchResult) :=
  match documents self with
  | [] => Ok []
  | _ :: _ =>
      similarities <- query_similarities self query ;;
      append_results (documents self) similarities
        (top_indices similarities top_k) []
  end.

(** The state an index is in after [add_documents docs] on a new object. *)
Definition loaded (docs : list string) : RAGDemo :=
  fst (add_documents __init__ docs).

(** ** The scores in binary64 *)

(** The numeric steps of [add_documents] and [search_documents] on 64-bit
    floats, in the order the libraries take them: sums run from 0.0 over
    the entries from left to right, a row is divided by the square root of
    its sum of squares, and the cosine normalises the rows once more.
    [np.log] is embedded at 1.0 only, where its value 0.0 is exact; a
    corpus that needs it elsewhere has no value here ([None]).  The text
    analysis, the slice and the loop are those of the main embedding. *)
Module Binary64.

Import PrimFloat.

Local Open Scope float_scope.

Definition of_nat (n : nat) : float := of_uint63 (Uint63.of_Z (Z.of_nat n)).



Definition np_log (x : float) : option float :=
  if x =? 1 then Some 0 else None.

Definition idf (n_samples df : nat) : option float :=
  option_map (fun l => l + 1) (np_log (of_nat (1 + n_samples) / of_nat (1 + df))).

Fixpoint all_some {A : Type} (l : list (option A)) : option (list A) :=
  match l with
  | [] => Some []
  | None :: _ => None
  | Some a :: l' => option_map (cons a) (all_some l')
  end.

Definition dot (u v : list float) : float :=
  fold_left (fun sum p => sum + fst p * snd p) (combine u v) 0.

Definition sum_squares (v : list float) : float :=
  fold_left (fun sum x => sum + x * x) v 0.

Definition normalize (v : list float) : list float :=
  if sum_squares v =? 0 then v
  else map (fun x => x / sqrt (sum_squares v)) v.

Definition weigh (idfs : list float) (counts : list nat) : list float :=
  map (fun p => of_nat (fst p) * snd p) (combine counts idfs).

Definition tfidf_row (vocab : list string) (idfs : list float) (doc : string)
  : list float :=
  normalize (weigh idfs (Text.count_row vocab doc)).

Record SearchResult : Type := {
  document : string;
  similarity_score : float;
  rank : nat
}.

Fixpoint insert_index (a : list float) (i : nat) (sorted : list nat) : list nat :=
  match sorted with
  | [] => [i]
  | j :: rest =>
      if nth i a 0 <? nth j a 0 then i :: j :: rest
      else j :: insert_index a i rest
  end.

Definition argsort (a : list float) : list nat :=
  fold_left (fun sorted i => insert_index a i sorted) (seq 0 (List.length a)) [].

Fixpoint append_results (docs : list string) (similarities : list float)
    (indices : list nat) (results : list SearchResult) : option (list SearchResult) :=
  match indices with
  | [] => Some results
  | idx :: rest =>
      match nth_error docs idx, nth_error similarities idx with
      | Some d, Some s =>
          append_results docs similarities rest
            (results ++ [{| document := d; similarity_score := s;
                            rank := (List.length results + 1)%nat |}])
      | _, _ => None
      end
  end.

(** The array [similarities] of a search for [query] on an index loaded
    with [docs]. *)
Definition similarities (docs : list string) (query : string) : option (list float) :=
  match Text.build_vocabulary docs with
  | [] => None
  | t :: ts =>
      let vocab := t :: ts in
      match all_some (map (idf (List.length docs))
                          (Text.document_frequency vocab docs)) with
      | None => None
      | Some idfs =>
          let query_vector := tfidf_row vocab idfs query in
          Some (map (fun doc => dot (normalize query_vector)
                                    (normalize (tfidf_row vocab idfs doc)))
                    docs)
      end
  end.


End Binary64.

(** ** Notions used to state the properties *)

(** [before a i j]: index [i] comes before [j] in increasing order of the
    values of [a], equal values in increasing order of index. *)
Definition before (a : list R) (i j : nat) : Prop :=
  (nth i a 0 < nth j a 0)%R \/ (nth i a 0%R = nth j a 0%R /\ i < j).

(** [at_index docs sims r i]: result [r] carries document [i] and its score. *)
Definition at_index (docs : list string) (sims : list R)
    (r : SearchResult) (i : nat) : Prop :=
  nth_error docs i = Some (document r) /\ nth_error sims i = Some (similarity_score r).

(** The idf vector fitted on a corpus. *)
Definition fitted_idf (docs : list string) : list R :=
  map (Tfidf.idf (List.length docs))
      (Text.document_frequency (Text.build_vocabulary docs) docs).

(** The vector of a text under the vocabulary and idf fitted on [docs]. *)
Definition vector_in (docs : list string) (text : string) : list R :=
  Tfidf.tfidf_row (Text.build_vocabulary docs) (fitted_idf docs) text.

(** The cosine similarity of query [q] and document [d] in corpus [docs]. *)
Definition score (docs : list string) (q d : string) : R :=
  Tfidf.dot (Tfidf.normalize (vector_in docs q)) (Tfidf.normalize (vector_in docs d)).

(** The corpus and the query of the demonstration in [main]. *)
Definition healthcare_doc : string :=
  "AI is transforming healthcare through improved diagnosis.".
Definition manufacturing_doc : string :=
  "Machine learning predicts equipment failures in manufacturing.".
Definition service_doc : string :=
  "AI chatbots revolutionize customer service.".
Definition demo_corpus : list string :=
  [healthcare_doc; manufacturing_doc; service_doc].
Definition demo_query : string := "How is AI improving healthcare?".

(** Two documents that a one-word query matches equally well. *)
Definition tie_corpus : list string := ["apple banana"; "apple cherry"].

(** ** Python dictionaries *)

(** A [dict] with string keys, as the list of its items in insertion
    order.  Assigning to a key that is present replaces its value where the
    key stands; a new key goes to the end. *)
Section Dict.

Context {V : Type}.

Definition dict : Type := list (string * V).

Fixpoint dict_get (d : dict) (k : string) : option V :=
  match d with
  | [] => None
  | (k', v) :: d' => if String.eqb k k' then Some v else dict_get d' k
  end.

Fixpoint dict_set (d : dict) (k : string) (v : V) : dict :=
  match d with
  | [] => [(k, v)]
  | (k', v') :: d' =>
      if String.eqb k k' then (k', v) :: d' else (k', v') :: dict_set d' k v
  end.

(** [d.update(other)] *)
Definition dict_update (d other : dict) : dict :=
  fold_left (fun acc item => dict_set acc (fst item) (snd item)) other d.

Definition dict_keys (d : dict) : list string := map fst d.

Definition dict_values (d : dict) : list V := map snd d.

End Dict.

Arguments dict V : clear implicits.

Local Set Warnings "-register-all".

(** A value of type [Any] received or sent as JSON. *)
Inductive Any : Type :=
| ANone
| ABool (b : bool)
| AInt (z : Z)
| AFloat (x : R)
| AStr (s : string)
| AList (l : list Any)
| ADict (d : list (string * Any)).

(** ** Prompt analysis (prompt_engineering.py) *)

Module PromptEngineering.

(** The ASCII characters on which [str.split()] splits. *)
Definition is_space (c : ascii) : bool :=
  let n := nat_of_ascii c in
  ((9 <=? n) && (n <=? 13)) || ((28 <=? n) && (n <=? 32)).

Definition flush (word : string) : list string :=
  match word with
  | EmptyString => []
  | String _ _ => [word]
  end.

(** [s.split()]: the maximal runs of characters that are not whitespace.
    [word] is the run being read. *)
Fixpoint split (s : string) (word : string) : list string :=
  match s with
  | EmptyString => flush word
  | String c s' =>
      if is_space c then flush word ++ split s' EmptyString
      else split s' (word ++ String c EmptyString)
  end.

(** [needle in hay] on strings. *)
Fixpoint contains (needle hay : string) : bool :=
  String.prefix needle hay
  || match hay with
     | EmptyString => false
     | String _ hay' => contains needle hay'
     end.

(** [any(word in text for word in words)] *)
Definition any_in (words : list string) (text : string) : bool :=
  existsb (fun word => contains word text) words.

Definition techniques : dict string :=
  [ ("zero_shot", "Direct question without examples");
    ("few_shot", "Provide examples before asking");
    ("chain_of_thought", "Step-by-step reasoning");
    ("role_playing", "Assign specific roles or personas");
    ("constraints", "Set specific limitations or requirements");
    ("formatting", "Specify exact output format") ].

Record Analysis : Type := {
  clarity_score : nat;
  specificity_score : nat;
  constraint_score : nat;
  examples_score : nat;
  format_score : nat;
  overall_score : Q;
  suggestions : list string
}.

Definition Qltb (x y : Q) : bool := negb (Qle_bool y x).

Definition analyze_prompt_effectiveness (prompt : string) : Analysis :=
  let words := List.length (split prompt EmptyString) in
  let lowered := Text.lower prompt in
  (* Clarity analysis *)
  let clarity := if words <? 50 then 2 else if words <? 200 then 4 else 5 in
  let suggestions1 :=
    if words <? 50 then ["Consider adding more context for clarity"] else [] in
  (* Specificity analysis *)
  let specificity :=
    (if contains "?" prompt then 2 else 0)
    + (if any_in ["specific"; "exact"; "precise"; "detailed"] lowered then 2 else 0)
    + (if 100 <? words then 1 else 0) in
  (* Constraint analysis *)
  let constraint :=
    (if any_in ["maximum"; "minimum"; "exactly"; "only"; "must"; "should"] lowered
     then 3 else 0)
    + (if any_in ["format"; "structure"; "json"; "xml"; "table"] lowered
       then 2 else 0) in
  (* Examples analysis *)
  let examples :=
    if contains "example" lowered || contains "for instance" lowered then 3 else 0 in
  (* Format analysis *)
  let format :=
    if any_in ["format"; "output"; "response"; "answer"] lowered then 2 else 0 in
  (* Overall score *)
  let overall :=
    (Z.of_nat (clarity + specificity + constraint + examples + format) # 5)%Q in
  let suggestions2 :=
    if Qltb overall (3 # 1)
    then ["Consider using few-shot examples";
          "Add specific output format requirements"]
    else [] in
  let suggestions3 :=
    if Qltb overall (2 # 1)
    then ["Review prompt clarity and specificity"] else [] in
  {| clarity_score := clarity;
     specificity_score := specificity;
     constraint_score := constraint;
     examples_score := examples;
     format_score := format;
     overall_score := overall;
     suggestions := suggestions1 ++ suggestions2 ++ suggestions3 |}.

(** The table of [generate_prompt_template]. *)
Definition templates : dict (dict string) :=
  [ ("classification",
     [ ("zero_shot", "Classify the following {input_type} as {categories}: {input_text}");
       ("few_shot", "Here are some examples:
{examples}

Now classify: {input_text}");
       ("chain_of_thought", "Let's solve this step by step:

Problem: {problem}

Let me think through this:
{steps}

Answer:") ]);
    ("generation",
     [ ("role_playing", "You are {role} with {expertise}. {task_description}");
       ("constraints", "Create {output_type} with these requirements:
{requirements}

{task_description}");
       ("formatting", "Generate {output_type} in this exact format:
{format_specification}

{task_description}") ]) ].

Definition generate_prompt_template (use_case technique : string) : string :=
  match dict_get templates use_case with
  | Some by_technique =>
      match dict_get by_technique technique with
      | Some template => template
      | None => "Custom prompt template for your specific needs"
      end
  | None => "Custom prompt template for your specific needs"
  end.

End PromptEngineering.

(** ** The web application (fastapi_app.py) *)

(** The request models, with the fields the handlers read. *)
Module RAGRequest.
Record t : Type := { query : string; top_k : Z }.
(** [top_k: int = Field(3, ge=1, le=10)]: a request outside the bounds is
    refused before the handler runs. *)
Definition valid (request : t) : bool :=
  (1 <=? top_k request)%Z && (top_k request <=? 10)%Z.
End RAGRequest.

Module ProjectCreateRequest.
Record t : Type := {
  name : string;
  description : string;
  model_type : string;
  use_case : string
}.
End ProjectCreateRequest.

Module Project.
Record t : Type := {
  id : string;
  name : string;
  description : string;
  model_type : string;
  use_case : string;
  created_date : string;
  status : string;
  performance_metrics : dict Any
}.
End Project.

Module Api.

(** The [detail] of an [HTTPException]: a fixed message, or [str(e)] of
    the exception caught. *)
Inductive detail : Type :=
| Message (s : string)
| StrOf (e : exn).

Inductive http_result (A : Type) : Type :=
| Response (a : A)
| HTTPException (status_code : nat) (d : detail).

Arguments Response {A} a.
Arguments HTTPException {A} status_code d.

(** The module-level objects the handlers share. *)
Record App : Type := {
  rag_system : RAGDemo;
  projects_db : dict Project.t;
  project_counter : nat
}.

Definition startup : App :=
  {| rag_system := __init__; projects_db := []; project_counter := 0 |}.

Definition sample_docs : list string :=
  [ "AI is transforming healthcare through improved diagnosis and treatment planning.";
    "Machine learning algorithms can predict equipment failures in manufacturing.";
    "AI-powered chatbots revolutionize customer service with 24/7 availability.";
    "Generative AI creates new opportunities in content creation and creative industries.";
    "Edge AI enables real-time processing and privacy-preserving applications." ].

Record RAGResponse : Type := {
  rag_success : bool;
  rag_query : string;
  rag_results : list SearchResult;
  rag_total_documents : nat;
  rag_timestamp : string
}.

(** [rag_search]; [now] is the value of [datetime.now().isoformat()]. *)
Definition rag_search (app : App) (request : RAGRequest.t) (now : string)
  : App * http_result RAGResponse :=
  let (rag, seeded) :=
    match documents (rag_system app) with
    | [] => add_documents (rag_system app) sample_docs
    | _ :: _ => (rag_system app, Ok tt)
    end in
  let app' := {| rag_system := rag; projects_db := projects_db app;
                 project_counter := project_counter app |} in
  match seeded with
  | Raise e => (app', HTTPException 500 (StrOf e))
  | Ok _ =>
      match search_documents rag (RAGRequest.query request) (RAGRequest.top_k request) with
      | Raise e => (app', HTTPException 500 (StrOf e))
      | Ok search_results =>
          (app', Response {| rag_success := true;
                             rag_query := RAGRequest.query request;
                             rag_results := search_results;
                             rag_total_documents := List.length (documents rag);
                             rag_timestamp := now |})
      end
  end.

(** Decimal digits of a natural number. *)
Definition decimal (n : nat) : string :=
  DecimalString.NilEmpty.string_of_uint (Nat.to_uint n).

Fixpoint zeros (n : nat) : string :=
  match n with
  | 0 => EmptyString
  | S n' => String "0" (zeros n')
  end.

(** The format [{n:04d}] of a number that is not negative: its decimal
    digits, with zeros in front up to a width of four. *)
Definition format_04d (n : nat) : string :=
  zeros (4 - String.length (decimal n)) ++ decimal n.

Definition project_id_of (counter : nat) : string :=
  "proj_" ++ format_04d counter.

(** [create_project]; [now1] and [now2] are the two readings of the clock,
    for [created_date] and for [last_updated]. *)
Definition create_project (app : App) (request : ProjectCreateRequest.t)
    (now1 now2 : string) : App * http_result Project.t :=
  let counter := project_counter app + 1 in
  let project_id := project_id_of counter in
  let project :=
    {| Project.id := project_id;
       Project.name := ProjectCreateRequest.name request;
       Project.description := ProjectCreateRequest.description request;
       Project.model_type := ProjectCreateRequest.model_type request;
       Project.use_case := ProjectCreateRequest.use_case request;
       Project.created_date := now1;
       Project.status := "active";
       Project.performance_metrics :=
         [ ("accuracy", AFloat 0); ("latency", AFloat 0);
           ("user_satisfaction", AFloat 0); ("last_updated", AStr now2) ] |} in
  ({| rag_system := rag_system app;
      projects_db := dict_set (projects_db app) project_id project;
      project_counter := counter |},
   Response project).

Definition list_projects (app : App) : http_result (list Project.t) :=
  Response (dict_values (projects_db app)).

Definition get_project (app : App) (project_id : string) : http_result Project.t :=
  match dict_get (projects_db app) project_id with
  | None => HTTPException 404 (Message "Project not found")
  | Some project => Response project
  end.

Definition with_metrics (project : Project.t) (metrics : dict Any) : Project.t :=
  {| Project.id := Project.id project;
     Project.name := Project.name project;
     Project.description := Project.description project;
     Project.model_type := Project.model_type project;
     Project.use_case := Project.use_case project;
     Project.created_date := Project.created_date project;
     Project.status := Project.status project;
     Project.performance_metrics := metrics |}.

Record Ack : Type := { ack_success : bool; ack_message : string }.

(** [update_project_metrics]: the request's metrics are merged into the
    stored ones, then [last_updated] is set to the clock reading [now]. *)
Definition update_project_metrics (app : App) (project_id : string)
    (metrics : dict Any) (now : string) : App * http_result Ack :=
  match dict_get (projects_db app) project_id with
  | None => (app, HTTPException 404 (Message "Project not found"))
  | Some project =>
      let merged := dict_update (Project.performance_metrics project) metrics in
      let stamped := dict_set merged "last_updated" (AStr now) in
      ({| rag_system := rag_system app;
          projects_db := dict_set (projects_db app) project_id
                           (with_metrics project stamped);
          project_counter := project_counter app |},
       Response {| ack_success := true;
                   ack_message := "Metrics updated successfully" |})
  end.

Record Stats : Type := {
  total_projects : nat;
  active_projects : nat;
  total_documents : nat;
  available_techniques : nat;
  api_version : string;
  stats_timestamp : string
}.

Definition get_api_stats (app : App) (now : string) : http_result Stats :=
  Response
    {| total_projects := List.length (projects_db app);
       active_projects :=
         List.length (filter (fun p => String.eqb (Project.status p) "active")
                             (dict_values (projects_db app)));
       total_documents := List.length (documents (rag_system app));
       available_techniques := List.length PromptEngineering.techniques;
       api_version := "1.0.0";
       stats_timestamp := now |}.

(** The states the application reaches from its start by the handlers
    that change its objects. *)
Inductive reachable : App -> Prop :=
| reach_startup : reachable startup
| reach_rag_search app request now :
    reachable app -> RAGRequest.valid request = true ->
    reachable (fst (rag_search app request now))
| reach_create_project app request now1 now2 :
    reachable app -> reachable (fst (create_project app request now1 now2))
| reach_update_project_metrics app project_id metrics now :
    reachable app ->
    reachable (fst (update_project_metrics app project_id metrics now)).

End Api.

(** ** Notions used to state further properties *)

(** The weight of term [t] in [text] before normalisation. *)
Definition term_weight (docs : list string) (text t : string) : R :=
  (INR (count_occ string_dec (Text.analyze text) t)
   * Tfidf.idf (List.length docs)
       (List.length
          (filter (fun doc => 0 <? count_occ string_dec (Text.analyze doc) t) docs)))%R.


(** The sum of the five scores. *)
Definition total (a : PromptEngineering.Analysis) : nat :=
  PromptEngineering.clarity_score a + PromptEngineering.specificity_score a
  + PromptEngineering.constraint_score a + PromptEngineering.examples_score a
  + PromptEngineering.format_score a.


(** What every reachable state of the application satisfies: the project
    ids are those of the counter values so far, in order; each project is
    stored under its own id and is active; the index is new or holds the
    sample documents. *)
Definition app_invariant (app : Api.App) : Prop :=
  dict_keys (Api.projects_db app)
  = map Api.project_id_of (seq 1 (Api.project_counter app))
  /\ Forall (fun item => Project.id (snd item) = fst item
                         /\ Project.status (snd item) = "active")
            (Api.projects_db app)
  /\ (Api.rag_system app = __init__ \/ Api.rag_system app = loaded Api.sample_docs).


(** A request, the application after it, and the project it creates. *)
Definition demo_request : ProjectCreateRequest.t :=
  {| ProjectCreateRequest.name := "Triage";
     ProjectCreateRequest.description := "Ticket triage";
     ProjectCreateRequest.model_type := "classifier";
     ProjectCreateRequest.use_case := "support" |}.

Definition demo_app : Api.App :=
  fst (Api.create_project Api.startup demo_request
         "2024-01-01T10:00:00" "2024-01-01T10:00:01").

Definition demo_project : Project.t :=
  {| Project.id := "proj_0001";
     Project.name := "Triage";
     Project.description := "Ticket triage";
     Project.model_type := "classifier";
     Project.use_case := "support";
     Project.created_date := "2024-01-01T10:00:00";
     Project.status := "active";
     Project.performance_metrics :=
       [ ("accuracy", AFloat 0); ("latency", AFloat 0);
         ("user_satisfaction", AFloat 0);
         ("last_updated", AStr "2024-01-01T10:00:01") ] |}.

Definition demo_metrics : dict Any :=
  [ ("accuracy", AFloat 1); ("last_updated", AStr "yesterday") ].

(** ** Checks of the text analysis *)

Example stop_word_count : List.length Text.ENGLISH_STOP_WORDS = 318.
Proof. reflexivity. Qed.

Example analyze_query :
  Text.analyze "How is AI improving healthcare?" = ["ai"; "improving"; "healthcare"].
Proof. vm_compute. reflexivity. Qed.

Example analyze_stop_words : Text.analyze "the a of" = [].
Proof. vm_compute. reflexivity. Qed.

(** ** The order of [argsort] *)

Section Ordering.

Variable a : list R.

Lemma before_le (i j : nat) : before a i j -> (nth i a 0 <= nth j a 0)%R.
Proof. intros [H | [H _]]; lra. Qed.

Lemma Rltb_true (x y : R) : Numpy.Rltb x y = true <-> (x < y)%R.
Proof.
  unfold Numpy.Rltb. destruct (Rlt_dec x y); split; intros; auto; discriminate.
Qed.

Lemma Rltb_false (x y : R) : Numpy.Rltb x y = false <-> (y <= x)%R.
Proof.
  unfold Numpy.Rltb. destruct (Rlt_dec x y); split; intros; auto; try discriminate; lra.
Qed.

Lemma insert_index_perm (i : nat) (l : list nat) :
  Permutation (Numpy.insert_index a i l) (i :: l).
Proof.
  induction l as [| j rest IH]; simpl.
  - apply Permutation_refl.
  - destruct (Numpy.Rltb (nth i a 0%R) (nth j a 0%R)).
    + apply Permutation_refl.
    + eapply Permutation_trans; [apply perm_skip, IH | apply perm_swap].
Qed.

Lemma insert_index_sorted (i : nat) (l : list nat) :
  StronglySorted (before a) l ->
  Forall (fun j => j < i) l ->
  StronglySorted (before a) (Numpy.insert_index a i l).
Proof.
  induction l as [| j rest IH]; simpl; intros Hs Hlt.
  - repeat constructor.
  - inversion Hs as [| ? ? Hs' Hall]; subst.
    inversion Hlt as [| ? ? Hj Hrest]; subst.
    destruct (Numpy.Rltb (nth i a 0%R) (nth j a 0%R)) eqn:E.
    + apply Rltb_true in E.
      constructor; [exact Hs |].
      constructor; [left; exact E |].
      rewrite Forall_forall in *. intros x Hx.
      left. specialize (Hall x Hx). apply before_le in Hall. lra.
    + apply Rltb_false in E.
      constructor; [apply IH; assumption |].
      rewrite Forall_forall in *. intros x Hx.
      apply (Permutation_in _ (insert_index_perm i rest)) in Hx.
      destruct Hx as [<- | Hx]; [| apply Hall; exact Hx].
      destruct (Rle_lt_or_eq_dec _ _ E) as [Hlt' | Heq].
      * left; exact Hlt'.
      * right; split; [exact Heq | exact Hj].
Qed.

Lemma argsort_fold (n s : nat) (acc : list nat) :
  StronglySorted (before a) acc ->
  Forall (fun j => j < s) acc ->
  let out := fold_left (fun sorted i => Numpy.insert_index a i sorted) (seq s n) acc in
  StronglySorted (before a) out /\ Permutation out (acc ++ seq s n).
Proof.
  revert s acc. induction n as [| n IH]; intros s acc Hs Hlt; simpl.
  - split; [exact Hs | rewrite app_nil_r; apply Permutation_refl].
  - destruct (IH (S s) (Numpy.insert_index a s acc)) as [H1 H2].
    + apply insert_index_sorted; assumption.
    + rewrite Forall_forall in *. intros x Hx.
      apply (Permutation_in _ (insert_index_perm s acc)) in Hx.
      destruct Hx as [<- | Hx]; [lia | specialize (Hlt x Hx); lia].
    + split; [exact H1 |].
      eapply Permutation_trans; [exact H2 |].
      eapply Permutation_trans;
        [apply Permutation_app_tail, insert_index_perm |].
      simpl. apply Permutation_middle.
Qed.

Lemma argsort_sorted : StronglySorted (before a) (Numpy.argsort a).
Proof.
  unfold Numpy.argsort.
  apply (argsort_fold (List.length a) 0 []); constructor.
Qed.

Lemma argsort_perm : Permutation (Numpy.argsort a) (seq 0 (List.length a)).
Proof.
  unfold Numpy.argsort.
  apply (argsort_fold (List.length a) 0 []); constructor.
Qed.

Lemma argsort_length : List.length (Numpy.argsort a) = List.length a.
Proof.
  rewrite (Permutation_length argsort_perm). apply length_seq.
Qed.

Lemma argsort_in (i : nat) : In i (Numpy.argsort a) -> i < List.length a.
Proof.
  intros H. apply (Permutation_in _ argsort_perm) in H.
  apply in_seq in H. lia.
Qed.

End Ordering.

(** ** Slicing, reversal and sortedness *)

Section SortedLists.

Context {A : Type}.

Lemma slice_from_suffix (start : Z) (l : list A) :
  exists pre, l = pre ++ Numpy.slice_from start l.
Proof.
  unfold Numpy.slice_from.
  eexists. symmetry. apply firstn_skipn.
Qed.

Lemma slice_from_last (k : Z) (l : list A) :
  (0 < k)%Z ->
  List.length (Numpy.slice_from (- k) l) = Nat.min (Z.to_nat k) (List.length l).
Proof.
  intros Hk. unfold Numpy.slice_from.
  destruct (Z.ltb_spec (- k) 0); [| lia].
  rewrite length_skipn. lia.
Qed.

Lemma slice_from_minus_zero (l : list A) : Numpy.slice_from (- 0) l = l.
Proof.
  unfold Numpy.slice_from. simpl.
  rewrite Z.min_l by lia. reflexivity.
Qed.

Lemma StronglySorted_app_r (R : A -> A -> Prop) (pre suf : list A) :
  StronglySorted R (pre ++ suf) -> StronglySorted R suf.
Proof.
  induction pre as [| x pre IH]; simpl; intros H; [exact H |].
  inversion H; subst. apply IH; assumption.
Qed.

Lemma StronglySorted_snoc (R : A -> A -> Prop) (l : list A) (x : A) :
  StronglySorted R l -> Forall (fun y => R y x) l -> StronglySorted R (l ++ [x]).
Proof.
  induction l as [| y l IH]; simpl; intros Hs Hall.
  - repeat constructor.
  - inversion Hs; subst. inversion Hall; subst.
    constructor; [apply IH; assumption |].
    apply Forall_app; split; [assumption | repeat constructor; assumption].
Qed.

Lemma StronglySorted_rev (R : A -> A -> Prop) (l : list A) :
  StronglySorted R l -> StronglySorted (fun x y => R y x) (rev l).
Proof.
  induction 1 as [| x l Hs IH Hall]; simpl; [constructor |].
  apply StronglySorted_snoc; [exact IH |].
  apply Forall_rev. exact Hall.
Qed.

Lemma StronglySorted_nth_error (R : A -> A -> Prop) (l : list A) :
  StronglySorted R l ->
  forall p1 p2 x y, p1 < p2 ->
    nth_error l p1 = Some x -> nth_error l p2 = Some y -> R x y.
Proof.
  induction 1 as [| z l Hs IH Hall]; intros p1 p2 x y Hp H1 H2.
  - destruct p1; discriminate.
  - destruct p2 as [| p2]; [lia |]. simpl in H2.
    destruct p1 as [| p1]; simpl in H1.
    + injection H1 as <-. rewrite Forall_forall in Hall.
      apply Hall. eapply nth_error_In; eassumption.
    + apply (IH p1 p2); [lia | assumption | assumption].
Qed.

Lemma StronglySorted_Forall2 {B : Type} (R : A -> A -> Prop) (Q : B -> B -> Prop)
    (rel : B -> A -> Prop) (l : list A) (m : list B) :
  (forall b1 a1 b2 a2, rel b1 a1 -> rel b2 a2 -> R a1 a2 -> Q b1 b2) ->
  Forall2 rel m l -> StronglySorted R l -> StronglySorted Q m.
Proof.
  intros Hrel H2. induction H2 as [| b x m l Hbx Hml IH]; intros Hs.
  - constructor.
  - inversion Hs as [| ? ? Hs' Hall]; subst.
    constructor; [apply IH; exact Hs' |].
    clear IH Hs Hs'. induction Hml as [| b' x' m l Hb' Hml IH]; [constructor |].
    inversion Hall; subst.
    constructor; [eapply Hrel; eassumption | apply IH; assumption].
Qed.

End SortedLists.

(** ** The result-building loop *)

Lemma append_results_ok (docs : list string) (sims : list R) (indices : list nat) :
  Forall (fun i => i < List.length docs /\ i < List.length sims) indices ->
  forall acc, exists rs,
    append_results docs sims indices acc = Ok (acc ++ rs)
    /\ Forall2 (at_index docs sims) rs indices
    /\ map rank rs = seq (List.length acc + 1) (List.length indices).
Proof.
  induction 1 as [| i indices [Hd Hs] Hall IH]; intros acc; simpl.
  - exists []. rewrite app_nil_r. repeat split; constructor.
  - destruct (nth_error docs i) as [d |] eqn:Ed;
      [| apply nth_error_None in Ed; lia].
    destruct (nth_error sims i) as [x |] eqn:Es;
      [| apply nth_error_None in Es; lia].
    destruct (IH (acc ++ [{| document := d; similarity_score := x;
                             rank := List.length acc + 1 |}]))
      as (rs & Hrun & Hrel & Hrank).
    exists ({| document := d; similarity_score := x;
               rank := List.length acc + 1 |} :: rs).
    split; [rewrite Hrun, <- app_assoc; reflexivity |].
    split.
    + constructor; [split; assumption | exact Hrel].
    + simpl. f_equal. rewrite Hrank, length_app. simpl.
      f_equal. lia.
Qed.

(** The indices chosen by the ranking are indices of the score array. *)
Lemma top_indices_in (sims : list R) (k : Z) (i : nat) :
  In i (top_indices sims k) -> i < List.length sims.
Proof.
  unfold top_indices, Numpy.reversed. intros H.
  apply in_rev in H.
  destruct (slice_from_suffix (- k) (Numpy.argsort sims)) as [pre Hpre].
  apply argsort_in. rewrite Hpre. apply in_or_app. right. exact H.
Qed.

(** They run from the highest score down; among equal scores from the
    highest index down. *)
Lemma top_indices_sorted (sims : list R) (k : Z) :
  StronglySorted (fun i j => before sims j i) (top_indices sims k).
Proof.
  unfold top_indices, Numpy.reversed.
  apply StronglySorted_rev.
  destruct (slice_from_suffix (- k) (Numpy.argsort sims)) as [pre Hpre].
  apply (StronglySorted_app_r _ pre). rewrite <- Hpre.
  apply argsort_sorted.
Qed.

Lemma top_indices_length (sims : list R) (k : Z) :
  (0 < k)%Z ->
  List.length (top_indices sims k) = Nat.min (Z.to_nat k) (List.length sims).
Proof.
  intros Hk. unfold top_indices, Numpy.reversed.
  rewrite length_rev, slice_from_last, argsort_length by exact Hk.
  reflexivity.
Qed.

Lemma top_indices_zero (sims : list R) :
  top_indices sims 0 = rev (Numpy.argsort sims).
Proof.
  unfold top_indices, Numpy.reversed.
  rewrite slice_from_minus_zero. reflexivity.
Qed.

(** ** The state after a successful load *)

Lemma add_documents_ok_iff (self : RAGDemo) (docs : list string) :
  snd (add_documents self docs) = Ok tt <-> Text.build_vocabulary docs <> [].
Proof.
  unfold add_documents, Tfidf.fit_transform.
  destruct (Text.build_vocabulary docs); simpl; split; intros H;
    try discriminate; try reflexivity; congruence.
Qed.

Lemma add_documents_state (self : RAGDemo) (docs : list string) :
  snd (add_documents self docs) = Ok tt ->
  fst (add_documents self docs) =
    {| documents := docs;
       vectorizer := {| Tfidf.vocabulary_ := Some (Text.build_vocabulary docs);
                        Tfidf.idf_ := Some (fitted_idf docs) |};
       document_vectors := Some (map (vector_in docs) docs) |}.
Proof.
  unfold add_documents, Tfidf.fit_transform, vector_in, fitted_idf.
  destruct (Text.build_vocabulary docs); simpl; intros H;
    [discriminate | reflexivity].
Qed.

Lemma add_documents_documents (self : RAGDemo) (docs : list string) :
  documents (fst (add_documents self docs)) = docs.
Proof.
  unfold add_documents, Tfidf.fit_transform.
  destruct (Text.build_vocabulary docs); reflexivity.
Qed.

Lemma normalize_length (v : list R) :
  List.length (Tfidf.normalize v) = List.length v.
Proof.
  unfold Tfidf.normalize.
  destruct (Req_dec_T (Tfidf.sum_squares v) 0); [reflexivity | apply length_map].
Qed.

Lemma vector_in_length (docs : list string) (text : string) :
  List.length (vector_in docs text) = List.length (Text.build_vocabulary docs).
Proof.
  unfold vector_in, Tfidf.tfidf_row, Tfidf.weigh, fitted_idf,
    Text.count_row, Text.document_frequency.
  rewrite normalize_length, length_map, length_combine, !length_map.
  apply Nat.min_id.
Qed.

Lemma same_width_vectors (docs : list string) (q : string) (ds : list string) :
  Tfidf.same_width [vector_in docs q] (map (vector_in docs) ds) = true.
Proof.
  unfold Tfidf.same_width. simpl. rewrite andb_true_r.
  apply forallb_forall. intros y Hy.
  apply in_map_iff in Hy. destruct Hy as (d & <- & _).
  rewrite !vector_in_length. apply Nat.eqb_refl.
Qed.

Lemma query_similarities_loaded (self : RAGDemo) (docs : list string) (q : string) :
  snd (add_documents self docs) = Ok tt ->
  query_similarities (fst (add_documents self docs)) q = Ok (map (score docs q) docs).
Proof.
  intros H. rewrite (add_documents_state _ _ H).
  unfold query_similarities, Tfidf.transform, Tfidf.cosine_similarity. simpl.
  fold (vector_in docs q).
  pose proof (same_width_vectors docs q docs) as W.
  unfold Tfidf.same_width in W. simpl in W. rewrite W. simpl.
  rewrite app_nil_r, map_map. reflexivity.
Qed.

Lemma search_documents_nonempty (self : RAGDemo) (q : string) (k : Z) :
  documents self <> [] ->
  search_documents self q k =
    (similarities <- query_similarities self q ;;
     append_results (documents self) similarities (top_indices similarities k) []).
Proof.
  unfold search_documents. destruct (documents self); [congruence | reflexivity].
Qed.

Lemma loaded_nonempty (self : RAGDemo) (docs : list string) :
  snd (add_documents self docs) = Ok tt -> docs <> [].
Proof.
  intros H ->. apply add_documents_ok_iff in H. apply H. reflexivity.
Qed.

(** A search on a loaded corpus: it returns, and its results are the
    documents at [top_indices] with their scores and ranks 1, 2, ... *)
Lemma search_documents_loaded (self : RAGDemo) (docs : list string)
    (q : string) (k : Z) :
  snd (add_documents self docs) = Ok tt ->
  let sims := map (score docs q) docs in
  exists rs,
    search_documents (fst (add_documents self docs)) q k = Ok rs
    /\ Forall2 (at_index docs sims) rs (top_indices sims k)
    /\ map rank rs = seq 1 (List.length rs).
Proof.
  intros H sims.
  rewrite search_documents_nonempty
    by (rewrite add_documents_documents; eapply loaded_nonempty; eassumption).
  rewrite add_documents_documents, (query_similarities_loaded _ _ q H).
  simpl. fold sims.
  destruct (append_results_ok docs sims (top_indices sims k)) with (acc := @nil SearchResult)
    as (rs & Hrun & Hrel & Hrank).
  - apply Forall_forall. intros i Hi. apply top_indices_in in Hi.
    unfold sims in *. rewrite length_map in *. lia.
  - exists rs. split; [exact Hrun |]. split; [exact Hrel |].
    rewrite Hrank. simpl. f_equal.
    apply Forall2_length in Hrel. congruence.
Qed.

Lemma at_index_documents (docs : list string) (sims : list R)
    (rs : list SearchResult) (indices : list nat) :
  Forall2 (at_index docs sims) rs indices ->
  map document rs = map (fun i => nth i docs EmptyString) indices.
Proof.
  induction 1 as [| r i rs indices [Hd _] _ IH]; simpl; [reflexivity |].
  f_equal; [| exact IH].
  symmetry. apply nth_error_nth. exact Hd.
Qed.

Lemma map_nth_all (docs : list string) :
  map (fun i => nth i docs EmptyString) (seq 0 (List.length docs)) = docs.
Proof.
  induction docs as [| d docs IH]; simpl; [reflexivity |].
  f_equal. rewrite <- seq_shift, map_map. exact IH.
Qed.

(** Results built from [top_indices] never increase in score. *)
Lemma results_sorted (docs : list string) (sims : list R) (k : Z)
    (rs : list SearchResult) :
  Forall2 (at_index docs sims) rs (top_indices sims k) ->
  StronglySorted (fun r1 r2 => (similarity_score r2 <= similarity_score r1)%R) rs.
Proof.
  intros Hrel.
  eapply StronglySorted_Forall2; [| exact Hrel | apply top_indices_sorted].
  intros r1 i1 r2 i2 [_ H1] [_ H2] Hb. simpl in Hb.
  apply before_le in Hb.
  rewrite (nth_error_nth _ _ _ H1), (nth_error_nth _ _ _ H2) in Hb.
  exact Hb.
Qed.

(** In a list whose scores never increase, a result of strictly higher
    score stands before one of lower score. *)
Lemma higher_score_earlier (rs : list SearchResult) :
  StronglySorted (fun r1 r2 => (similarity_score r2 <= similarity_score r1)%R) rs ->
  forall p1 p2 r1 r2,
    nth_error rs p1 = Some r1 -> nth_error rs p2 = Some r2 ->
    (similarity_score r2 < similarity_score r1)%R -> p1 < p2.
Proof.
  intros Hs p1 p2 r1 r2 H1 H2 Hlt.
  destruct (Nat.lt_trichotomy p1 p2) as [Hp | [Hp | Hp]]; [exact Hp | |]; exfalso.
  - subst p2. rewrite H1 in H2. injection H2 as <-. lra.
  - pose proof (StronglySorted_nth_error _ _ Hs p2 p1 r2 r1 Hp H2 H1) as Hle.
    simpl in Hle. lra.
Qed.

(** ** Number, rank and order of the results *)

(** C1: on a non-empty loaded corpus and for a positive [top_k], the search
    returns exactly min(top_k, |C|) results, ranked 1, 2, ... in output
    order, with scores that never increase along the output. *)
Theorem search_count_rank_order (self : RAGDemo) (docs : list string)
    (q : string) (k : Z) :
  docs <> [] ->
  (0 < k)%Z ->
  snd (add_documents self docs) = Ok tt ->
  exists rs,
    search_documents (fst (add_documents self docs)) q k = Ok rs
    /\ List.length rs = Nat.min (Z.to_nat k) (List.length docs)
    /\ map rank rs = seq 1 (Nat.min (Z.to_nat k) (List.length docs))
    /\ StronglySorted
         (fun r1 r2 => (similarity_score r2 <= similarity_score r1)%R) rs.
Proof.
  intros _ Hk H.
  destruct (search_documents_loaded self docs q k H) as (rs & Hrun & Hrel & Hrank).
  assert (Hlen : List.length rs = Nat.min (Z.to_nat k) (List.length docs)).
  { rewrite (Forall2_length Hrel), top_indices_length, length_map by exact Hk.
    reflexivity. }
  exists rs. split; [exact Hrun |]. split; [exact Hlen |].
  split; [rewrite <- Hlen; exact Hrank |].
  eapply StronglySorted_Forall2; [| exact Hrel | apply top_indices_sorted].
  intros r1 i1 r2 i2 [_ H1] [_ H2] Hb. simpl in Hb.
  apply before_le in Hb.
  rewrite (nth_error_nth _ _ _ H1), (nth_error_nth _ _ _ H2) in Hb.
  exact Hb.
Qed.

(** C2: with no document stored the search returns the empty list,
    whatever the query and [top_k]. *)
Theorem search_empty_corpus (self : RAGDemo) (q : string) (k : Z) :
  documents self = [] -> search_documents self q k = Ok [].
Proof.
  intros H. unfold search_documents. rewrite H. reflexivity.
Qed.

(** C5, as amended: loading the empty list raises the vectorizer's
    empty-vocabulary error; the empty list has been stored by then, so
    every later search returns the empty list. *)
Theorem add_no_documents (self : RAGDemo) :
  snd (add_documents self []) = Raise ValueError
  /\ forall q k, search_documents (fst (add_documents self [])) q k = Ok [].
Proof.
  split; [reflexivity |].
  intros q k. apply search_empty_corpus. apply add_documents_documents.
Qed.

(** C7: a second successful load leaves the index in the state a new
    index has after loading the second corpus alone: documents,
    vocabulary, idf vector and document vectors come from the second
    corpus only, and so does every search result. *)
Theorem reload_replaces_corpus (self : RAGDemo) (docs1 docs2 : list string) :
  let st1 := fst (add_documents self docs1) in
  snd (add_documents st1 docs2) = Ok tt ->
  let st2 := fst (add_documents st1 docs2) in
  st2 = loaded docs2
  /\ forall q k,
       search_documents st2 q k = search_documents (loaded docs2) q k
       /\ forall rs r,
            search_documents st2 q k = Ok rs -> In r rs -> In (document r) docs2.
Proof.
  intros st1 H st2.
  assert (H0 : snd (add_documents __init__ docs2) = Ok tt).
  { apply add_documents_ok_iff. apply add_documents_ok_iff in H. exact H. }
  assert (Hst : st2 = loaded docs2).
  { unfold st2, loaded.
    rewrite (add_documents_state _ _ H), (add_documents_state _ _ H0).
    reflexivity. }
  split; [exact Hst |].
  intros q k. split; [rewrite Hst; reflexivity |].
  intros rs r Hrun Hin.
  destruct (search_documents_loaded st1 docs2 q k H) as (rs' & Hrun' & Hrel & _).
  fold st2 in Hrun'. rewrite Hrun in Hrun'. injection Hrun' as <-.
  apply (in_map document) in Hin.
  rewrite (at_index_documents _ _ _ _ Hrel) in Hin.
  apply in_map_iff in Hin. destruct Hin as (i & <- & Hi).
  apply nth_In. apply top_indices_in in Hi. rewrite length_map in Hi. exact Hi.
Qed.

(** C10: with [top_k] equal to 0 the slice [[-0:]] keeps the whole index
    array, so the search on a loaded corpus returns every document of the
    corpus, ranked 1 to |C| by score, highest first. *)
Theorem search_top_k_zero (self : RAGDemo) (docs : list string) (q : string) :
  docs <> [] ->
  snd (add_documents self docs) = Ok tt ->
  exists rs,
    search_documents (fst (add_documents self docs)) q 0 = Ok rs
    /\ List.length rs = List.length docs
    /\ map rank rs = seq 1 (List.length docs)
    /\ Permutation (map document rs) docs
    /\ StronglySorted
         (fun r1 r2 => (similarity_score r2 <= similarity_score r1)%R) rs.
Proof.
  intros _ H.
  destruct (search_documents_loaded self docs q 0 H) as (rs & Hrun & Hrel & Hrank).
  pose proof (results_sorted _ _ _ _ Hrel) as Hsorted.
  rewrite top_indices_zero in Hrel.
  assert (Hlen : List.length rs = List.length docs).
  { rewrite (Forall2_length Hrel), length_rev, argsort_length, length_map.
    reflexivity. }
  exists rs. split; [exact Hrun |]. split; [exact Hlen |].
  split; [rewrite <- Hlen; exact Hrank |].
  split; [| exact Hsorted].
  rewrite (at_index_documents _ _ _ _ Hrel).
  assert (Hperm : Permutation (rev (Numpy.argsort (map (score docs q) docs)))
                              (seq 0 (List.length docs))).
  { eapply Permutation_trans; [apply Permutation_sym, Permutation_rev |].
    rewrite <- (length_map (score docs q) docs). apply argsort_perm. }
  apply (Permutation_map (fun i => nth i docs EmptyString)) in Hperm.
  rewrite map_nth_all in Hperm. exact Hperm.
Qed.

(** ** Zero vectors *)

Lemma weigh_all_zero (idfs : list R) (counts : list nat) :
  Forall (fun c => c = 0) counts ->
  Forall (fun x => x = 0%R) (Tfidf.weigh idfs counts).
Proof.
  unfold Tfidf.weigh. intros H. revert idfs.
  induction H as [| c counts Hc _ IH]; intros idfs; simpl; [constructor |].
  destruct idfs as [| w idfs]; simpl; [constructor |].
  constructor; [subst c; simpl; lra | apply IH].
Qed.

Lemma sum_squares_all_zero (v : list R) :
  Forall (fun x => x = 0%R) v -> Tfidf.sum_squares v = 0%R.
Proof.
  unfold Tfidf.sum_squares.
  induction 1 as [| x v Hx _ IH]; simpl; [reflexivity |].
  rewrite IH, Hx. lra.
Qed.

Lemma normalize_all_zero (v : list R) :
  Forall (fun x => x = 0%R) v -> Tfidf.normalize v = v.
Proof.
  intros H. unfold Tfidf.normalize.
  destruct (Req_dec_T (Tfidf.sum_squares v) 0) as [_ | Hne]; [reflexivity |].
  exfalso. apply Hne. apply sum_squares_all_zero. exact H.
Qed.

Lemma dot_all_zero_l (u v : list R) :
  Forall (fun x => x = 0%R) u -> Tfidf.dot u v = 0%R.
Proof.
  unfold Tfidf.dot. intros H. revert v.
  induction H as [| x u Hx _ IH]; intros v; simpl; [reflexivity |].
  destruct v as [| y v]; simpl; [reflexivity |].
  rewrite IH, Hx. lra.
Qed.

Lemma dot_all_zero_r (u v : list R) :
  Forall (fun x => x = 0%R) v -> Tfidf.dot u v = 0%R.
Proof.
  unfold Tfidf.dot. intros H. revert u.
  induction H as [| y v Hy _ IH]; intros u; destruct u as [| x u]; simpl;
    try reflexivity.
  rewrite IH, Hy. lra.
Qed.

(** A text none of whose terms is in the vocabulary has the zero vector. *)
Lemma vector_in_all_zero (docs : list string) (text : string) :
  (forall t, In t (Text.analyze text) -> ~ In t (Text.build_vocabulary docs)) ->
  Forall (fun x => x = 0%R) (vector_in docs text).
Proof.
  intros H. unfold vector_in, Tfidf.tfidf_row.
  assert (Hw : Forall (fun x => x = 0%R)
                 (Tfidf.weigh (fitted_idf docs)
                    (Text.count_row (Text.build_vocabulary docs) text))).
  { apply weigh_all_zero. unfold Text.count_row.
    apply Forall_forall. intros c Hc.
    apply in_map_iff in Hc. destruct Hc as (t & <- & Ht).
    apply count_occ_not_In. intros Hin. exact (H t Hin Ht). }
  rewrite normalize_all_zero; exact Hw.
Qed.

Lemma score_zero_query (docs : list string) (q d : string) :
  (forall t, In t (Text.analyze q) -> ~ In t (Text.build_vocabulary docs)) ->
  score docs q d = 0%R.
Proof.
  intros H. unfold score.
  apply dot_all_zero_l.
  rewrite normalize_all_zero; apply vector_in_all_zero; exact H.
Qed.

Lemma score_zero_document (docs : list string) (q d : string) :
  Text.analyze d = [] -> score docs q d = 0%R.
Proof.
  intros H. unfold score.
  assert (Hz : Forall (fun x => x = 0%R) (vector_in docs d)).
  { apply vector_in_all_zero. rewrite H. intros t []. }
  apply dot_all_zero_r. rewrite normalize_all_zero; exact Hz.
Qed.

(** C9: a query without any term of the fitted vocabulary still gets
    min(top_k, |C|) results on a non-empty loaded corpus, every one of
    them with score 0. *)
Theorem search_query_outside_vocabulary (self : RAGDemo) (docs : list string)
    (q : string) (k : Z) :
  docs <> [] ->
  (0 < k)%Z ->
  snd (add_documents self docs) = Ok tt ->
  (forall t, In t (Text.analyze q) -> ~ In t (Text.build_vocabulary docs)) ->
  exists rs,
    search_documents (fst (add_documents self docs)) q k = Ok rs
    /\ List.length rs = Nat.min (Z.to_nat k) (List.length docs)
    /\ Forall (fun r => similarity_score r = 0%R) rs.
Proof.
  intros _ Hk H Hq.
  destruct (search_documents_loaded self docs q k H) as (rs & Hrun & Hrel & _).
  exists rs. split; [exact Hrun |]. split.
  - rewrite (Forall2_length Hrel), top_indices_length, length_map by exact Hk.
    reflexivity.
  - clear Hrun. induction Hrel as [| r i rs indices [_ Hs] _ IH]; constructor;
      [| exact IH].
    apply nth_error_In in Hs. apply in_map_iff in Hs.
    destruct Hs as (d & Hd & _). rewrite <- Hd.
    apply score_zero_query. exact Hq.
Qed.

(** ** Cosine similarity in closed form *)

Section RealLemmas.
Local Open Scope R_scope.

Lemma sum_squares_nonneg (v : list R) : 0 <= Tfidf.sum_squares v.
Proof.
  unfold Tfidf.sum_squares. induction v as [| x v IH]; simpl; [lra | nra].
Qed.

Lemma dot_scaled (u v : list R) (c d : R) :
  c <> 0 -> d <> 0 ->
  Tfidf.dot (map (fun x => x / c) u) (map (fun y => y / d) v)
  = Tfidf.dot u v / (c * d).
Proof.
  intros Hc Hd. unfold Tfidf.dot. revert v.
  induction u as [| x u IH]; intros v; simpl; [field; auto |].
  destruct v as [| y v]; simpl; [field; auto |].
  rewrite IH. field. auto.
Qed.

Lemma sum_squares_scaled (v : list R) (c : R) :
  c <> 0 ->
  Tfidf.sum_squares (map (fun x => x / c) v) = Tfidf.sum_squares v / (c * c).
Proof.
  intros Hc. unfold Tfidf.sum_squares.
  induction v as [| x v IH]; simpl; [field; auto |].
  rewrite IH. field. auto.
Qed.

Lemma sqrt_sum_squares_neq_0 (v : list R) :
  Tfidf.sum_squares v <> 0 -> sqrt (Tfidf.sum_squares v) <> 0.
Proof.
  intros Hne Hs. apply Hne.
  apply sqrt_eq_0; [apply sum_squares_nonneg | exact Hs].
Qed.

Lemma normalize_idempotent (v : list R) :
  Tfidf.normalize (Tfidf.normalize v) = Tfidf.normalize v.
Proof.
  unfold Tfidf.normalize at 2 3.
  destruct (Req_dec_T (Tfidf.sum_squares v) 0) as [Hz | Hne].
  - unfold Tfidf.normalize.
    destruct (Req_dec_T (Tfidf.sum_squares v) 0); [reflexivity | contradiction].
  - pose proof (sqrt_sum_squares_neq_0 v Hne) as Hs.
    assert (H1 : Tfidf.sum_squares
                   (map (fun x => x / sqrt (Tfidf.sum_squares v)) v) = 1).
    { rewrite sum_squares_scaled by exact Hs.
      rewrite sqrt_sqrt by apply sum_squares_nonneg.
      field. exact Hne. }
    unfold Tfidf.normalize. rewrite H1.
    destruct (Req_dec_T 1 0) as [H10 | _]; [lra |].
    rewrite sqrt_1, map_map.
    apply map_ext. intros x. field. exact Hs.
Qed.

Lemma dot_normalize (u v : list R) :
  Tfidf.sum_squares u <> 0 -> Tfidf.sum_squares v <> 0 ->
  Tfidf.dot (Tfidf.normalize u) (Tfidf.normalize v)
  = Tfidf.dot u v / (sqrt (Tfidf.sum_squares u) * sqrt (Tfidf.sum_squares v)).
Proof.
  intros Hu Hv. unfold Tfidf.normalize.
  destruct (Req_dec_T (Tfidf.sum_squares u) 0); [contradiction |].
  destruct (Req_dec_T (Tfidf.sum_squares v) 0); [contradiction |].
  apply dot_scaled; apply sqrt_sum_squares_neq_0; assumption.
Qed.

Lemma idf_ge_1 (n df : nat) : (df <= n)%nat -> 1 <= Tfidf.idf n df.
Proof.
  intros H. unfold Tfidf.idf.
  assert (Hdf : 0 < 1 + INR df) by (pose proof (pos_INR df); lra).
  assert (Hq : 1 <= (1 + INR n) / (1 + INR df)).
  { apply le_INR in H.
    apply (Rmult_le_reg_r (1 + INR df)); [exact Hdf |].
    unfold Rdiv. rewrite Rmult_assoc, Rinv_l by lra. lra. }
  destruct (Rle_lt_or_eq_dec _ _ Hq) as [Hlt | Heq].
  - pose proof (ln_increasing 1 _ Rlt_0_1 Hlt) as Hln. rewrite ln_1 in Hln. lra.
  - rewrite <- Heq, ln_1. lra.
Qed.

End RealLemmas.

(** ** The range of the score in exact arithmetic *)

Section UnitInterval.
Local Open Scope R_scope.










End UnitInterval.

(** ** The demonstration corpus *)

Lemma demo_vocabulary :
  Text.build_vocabulary demo_corpus =
  ["ai"; "chatbots"; "customer"; "diagnosis"; "equipment"; "failures";
   "healthcare"; "improved"; "learning"; "machine"; "manufacturing";
   "predicts"; "revolutionize"; "service"; "transforming"].
Proof. vm_compute. reflexivity. Qed.

Lemma demo_document_frequency :
  Text.document_frequency (Text.build_vocabulary demo_corpus) demo_corpus =
  [2; 1; 1; 1; 1; 1; 1; 1; 1; 1; 1; 1; 1; 1; 1].
Proof. vm_compute. reflexivity. Qed.

Lemma demo_counts_query :
  Text.count_row (Text.build_vocabulary demo_corpus) demo_query =
  [1; 0; 0; 0; 0; 0; 1; 0; 0; 0; 0; 0; 0; 0; 0].
Proof. vm_compute. reflexivity. Qed.

Lemma demo_counts_healthcare :
  Text.count_row (Text.build_vocabulary demo_corpus) healthcare_doc =
  [1; 0; 0; 1; 0; 0; 1; 1; 0; 0; 0; 0; 0; 0; 1].
Proof. vm_compute. reflexivity. Qed.

Lemma demo_counts_manufacturing :
  Text.count_row (Text.build_vocabulary demo_corpus) manufacturing_doc =
  [0; 0; 0; 0; 1; 1; 0; 0; 1; 1; 1; 1; 0; 0; 0].
Proof. vm_compute. reflexivity. Qed.

Lemma demo_counts_service :
  Text.count_row (Text.build_vocabulary demo_corpus) service_doc =
  [1; 1; 1; 0; 0; 0; 0; 0; 0; 0; 0; 0; 1; 1; 0].
Proof. vm_compute. reflexivity. Qed.

Section Demo.
Local Open Scope R_scope.

(** The score in closed form, for vectors that are not zero. *)
Lemma score_closed_form (docs : list string) (q d : string) :
  let wq := Tfidf.weigh (fitted_idf docs) (Text.count_row (Text.build_vocabulary docs) q) in
  let wd := Tfidf.weigh (fitted_idf docs) (Text.count_row (Text.build_vocabulary docs) d) in
  Tfidf.sum_squares wq <> 0 -> Tfidf.sum_squares wd <> 0 ->
  score docs q d
  = Tfidf.dot wq wd / (sqrt (Tfidf.sum_squares wq) * sqrt (Tfidf.sum_squares wd)).
Proof.
  intros wq wd Hq Hd. unfold score, vector_in, Tfidf.tfidf_row.
  rewrite !normalize_idempotent. apply dot_normalize; assumption.
Qed.

Lemma demo_idf :
  fitted_idf demo_corpus =
  Tfidf.idf 3 2 :: repeat (Tfidf.idf 3 1) 14.
Proof.
  unfold fitted_idf. rewrite demo_document_frequency. reflexivity.
Qed.

Lemma demo_scores :
  let a := Tfidf.idf 3 2 in
  let b := Tfidf.idf 3 1 in
  let n := sqrt (a * a + b * b) * sqrt (a * a + 4 * (b * b)) in
  map (score demo_corpus demo_query) demo_corpus
  = [(a * a + b * b) / n; 0; a * a / n].
Proof.
  intros a b n.
  assert (Ha : 1 <= a) by (apply idf_ge_1; lia).
  assert (Hb : 1 <= b) by (apply idf_ge_1; lia).
  unfold demo_corpus at 2. cbn [map].
  rewrite !score_closed_form;
    rewrite ?demo_idf, ?demo_counts_query, ?demo_counts_healthcare,
      ?demo_counts_manufacturing, ?demo_counts_service;
    unfold Tfidf.dot, Tfidf.sum_squares, Tfidf.weigh;
    cbn [map combine fold_right fst snd repeat];
    change (INR 1) with 1; change (INR 0) with 0; fold a b;
    try nra.
  unfold n. f_equal; [| f_equal; [| f_equal]].
  - f_equal; [ring | f_equal; f_equal; ring].
  - match goal with |- ?x / ?y = 0 => replace x with 0 by ring end.
    unfold Rdiv. apply Rmult_0_l.
  - f_equal; [ring | f_equal; f_equal; ring].
Qed.

Lemma argsort_low_mid_high (s1 s2 s3 : R) :
  s2 < s3 -> s3 < s1 -> Numpy.argsort [s1; s2; s3] = [1; 2; 0]%nat.
Proof.
  intros H23 H31. unfold Numpy.argsort. simpl.
  rewrite (proj2 (Rltb_true s2 s1)) by lra. simpl.
  rewrite (proj2 (Rltb_false s3 s2)) by lra. simpl.
  rewrite (proj2 (Rltb_true s3 s1)) by lra.
  reflexivity.
Qed.

(** C4: on the demonstration corpus, the query about healthcare with
    [top_k] 2 returns the healthcare document at rank 1 and the customer
    service document at rank 2, and the manufacturing document scores
    strictly less than both. *)
Theorem demo_scenario :
  exists s1 s2 s3 : R,
    query_similarities (loaded demo_corpus) demo_query = Ok [s1; s2; s3]
    /\ s2 < s3 /\ s3 < s1
    /\ search_documents (loaded demo_corpus) demo_query 2
       = Ok [ {| document := healthcare_doc; similarity_score := s1; rank := 1 |};
              {| document := service_doc; similarity_score := s3; rank := 2 |} ].
Proof.
  assert (Hload : snd (add_documents __init__ demo_corpus) = Ok tt) by reflexivity.
  pose proof (query_similarities_loaded __init__ demo_corpus demo_query Hload) as Hsim.
  fold (loaded demo_corpus) in Hsim.
  rewrite demo_scores in Hsim.
  set (a := Tfidf.idf 3 2) in *. set (b := Tfidf.idf 3 1) in *.
  set (n := sqrt (a * a + b * b) * sqrt (a * a + 4 * (b * b))) in *.
  assert (Ha : 1 <= a) by (apply idf_ge_1; lia).
  assert (Hb : 1 <= b) by (apply idf_ge_1; lia).
  assert (Hn : 0 < n).
  { unfold n. apply Rmult_lt_0_compat; apply sqrt_lt_R0; nra. }
  assert (H23 : 0 < a * a / n).
  { apply Rdiv_lt_0_compat; nra. }
  assert (H31 : a * a / n < (a * a + b * b) / n).
  { unfold Rdiv. apply Rmult_lt_compat_r; [apply Rinv_0_lt_compat; exact Hn | nra]. }
  exists ((a * a + b * b) / n), 0, (a * a / n).
  split; [exact Hsim |]. split; [exact H23 |]. split; [exact H31 |].
  rewrite search_documents_nonempty by discriminate.
  rewrite Hsim. simpl bind.
  unfold top_indices. rewrite (argsort_low_mid_high _ _ _ H23 H31).
  reflexivity.
Qed.

(** *** Two documents of equal score *)

Lemma tie_idf :
  fitted_idf tie_corpus = [Tfidf.idf 2 2; Tfidf.idf 2 1; Tfidf.idf 2 1].
Proof. unfold fitted_idf. reflexivity. Qed.

Lemma tie_counts_query :
  Text.count_row (Text.build_vocabulary tie_corpus) "apple" = [1; 0; 0]%nat.
Proof. vm_compute. reflexivity. Qed.

Lemma tie_counts_banana :
  Text.count_row (Text.build_vocabulary tie_corpus) "apple banana" = [1; 1; 0]%nat.
Proof. vm_compute. reflexivity. Qed.

Lemma tie_counts_cherry :
  Text.count_row (Text.build_vocabulary tie_corpus) "apple cherry" = [1; 0; 1]%nat.
Proof. vm_compute. reflexivity. Qed.

Lemma tie_scores :
  let a := Tfidf.idf 2 2 in
  let b := Tfidf.idf 2 1 in
  let s := a * a / (sqrt (a * a) * sqrt (a * a + b * b)) in
  map (score tie_corpus "apple") tie_corpus = [s; s].
Proof.
  intros a b s.
  assert (Ha : 1 <= a) by (apply idf_ge_1; lia).
  assert (Hb : 1 <= b) by (apply idf_ge_1; lia).
  unfold tie_corpus at 2. cbn [map].
  rewrite !score_closed_form;
    rewrite ?tie_idf, ?tie_counts_query, ?tie_counts_banana, ?tie_counts_cherry;
    unfold Tfidf.dot, Tfidf.sum_squares, Tfidf.weigh;
    cbn [map combine fold_right fst snd];
    change (INR 1) with 1; change (INR 0) with 0; fold a b;
    try nra.
  unfold s. f_equal; [| f_equal];
    (f_equal; [ring | f_equal; f_equal; ring]).
Qed.

Lemma argsort_equal_pair (s : R) : Numpy.argsort [s; s] = [0; 1]%nat.
Proof.
  unfold Numpy.argsort. simpl.
  rewrite (proj2 (Rltb_false s s)) by lra.
  reflexivity.
Qed.

(** The search on [tie_corpus]: both documents have the same score, and
    the document of index 1 is listed first. *)
Lemma tie_search :
  exists s : R,
    search_documents (loaded tie_corpus) "apple" 2
    = Ok [ {| document := "apple cherry"; similarity_score := s; rank := 1 |};
           {| document := "apple banana"; similarity_score := s; rank := 2 |} ].
Proof.
  assert (Hload : snd (add_documents __init__ tie_corpus) = Ok tt) by reflexivity.
  pose proof (query_similarities_loaded __init__ tie_corpus "apple" Hload) as Hsim.
  fold (loaded tie_corpus) in Hsim.
  rewrite tie_scores in Hsim.
  eexists.
  rewrite search_documents_nonempty by discriminate.
  rewrite Hsim. simpl bind.
  unfold top_indices. rewrite argsort_equal_pair.
  reflexivity.
Qed.

(** C3, counterexample: "apple banana" (index 0) and "apple cherry"
    (index 1) have the same score for the query "apple", and the search
    lists the document of index 1 first. *)
Lemma tie_lists_higher_index_first :
  exists s : R,
    search_documents (loaded tie_corpus) "apple" 2
    = Ok [ {| document := "apple cherry"; similarity_score := s; rank := 1 |};
           {| document := "apple banana"; similarity_score := s; rank := 2 |} ].
Proof. exact tie_search. Qed.

End Demo.

(** ** Loads that raise *)

(** C5, counterexample: on a new index, [add_documents] of the empty list
    does not return normally. *)
Lemma add_no_documents_raises : snd (add_documents __init__ []) <> Ok tt.
Proof. simpl. discriminate. Qed.

(** C6, counterexample: a corpus whose only document is made of stop words
    has an empty vocabulary, so [add_documents] raises; the search that
    follows raises as well, the vectorizer not being fitted. *)
Lemma stop_word_corpus_raises :
  snd (add_documents __init__ ["the a of"]) = Raise ValueError
  /\ search_documents (fst (add_documents __init__ ["the a of"])) "cats" 1
     = Raise NotFittedError.
Proof. split; reflexivity. Qed.

(** ** The theorems at concrete inputs *)

Lemma search_count_rank_order_witness :
  demo_corpus <> []
  /\ (0 < 2)%Z
  /\ snd (add_documents __init__ demo_corpus) = Ok tt
  /\ exists rs,
       search_documents (fst (add_documents __init__ demo_corpus)) demo_query 2 = Ok rs
       /\ List.length rs = Nat.min (Z.to_nat 2) (List.length demo_corpus)
       /\ map rank rs = seq 1 (Nat.min (Z.to_nat 2) (List.length demo_corpus))
       /\ StronglySorted
            (fun r1 r2 => (similarity_score r2 <= similarity_score r1)%R) rs.
Proof.
  split; [discriminate |]. split; [lia |]. split; [reflexivity |].
  apply (search_count_rank_order __init__ demo_corpus demo_query 2);
    [discriminate | lia | reflexivity].
Defined.

Lemma search_empty_corpus_witness :
  documents __init__ = []
  /\ search_documents __init__ demo_query 3 = Ok [].
Proof.
  split; [reflexivity |].
  apply (search_empty_corpus __init__ demo_query 3). reflexivity.
Defined.

Lemma reload_replaces_corpus_witness :
  snd (add_documents (fst (add_documents __init__ demo_corpus)) tie_corpus) = Ok tt
  /\ fst (add_documents (fst (add_documents __init__ demo_corpus)) tie_corpus)
     = loaded tie_corpus
  /\ forall q k,
       search_documents
         (fst (add_documents (fst (add_documents __init__ demo_corpus)) tie_corpus)) q k
       = search_documents (loaded tie_corpus) q k
       /\ forall rs r,
            search_documents
              (fst (add_documents (fst (add_documents __init__ demo_corpus)) tie_corpus))
              q k = Ok rs ->
            In r rs -> In (document r) tie_corpus.
Proof.
  split; [reflexivity |].
  apply (reload_replaces_corpus __init__ demo_corpus tie_corpus). reflexivity.
Defined.

Lemma search_query_outside_vocabulary_witness :
  demo_corpus <> []
  /\ (0 < 2)%Z
  /\ snd (add_documents __init__ demo_corpus) = Ok tt
  /\ (forall t, In t (Text.analyze "quantum") ->
                ~ In t (Text.build_vocabulary demo_corpus))
  /\ exists rs,
       search_documents (fst (add_documents __init__ demo_corpus)) "quantum" 2 = Ok rs
       /\ List.length rs = Nat.min (Z.to_nat 2) (List.length demo_corpus)
       /\ Forall (fun r => similarity_score r = 0%R) rs.
Proof.
  assert (Hq : forall t, In t (Text.analyze "quantum") ->
                         ~ In t (Text.build_vocabulary demo_corpus)).
  { intros t Ht Hin. vm_compute in Ht. destruct Ht as [<- | []].
    vm_compute in Hin.
    repeat (destruct Hin as [Hin | Hin]; [discriminate Hin |]).
    exact Hin. }
  split; [discriminate |]. split; [lia |]. split; [reflexivity |].
  split; [exact Hq |].
  apply (search_query_outside_vocabulary __init__ demo_corpus "quantum" 2);
    [discriminate | lia | reflexivity | exact Hq].
Defined.

Lemma search_top_k_zero_witness :
  demo_corpus <> []
  /\ snd (add_documents __init__ demo_corpus) = Ok tt
  /\ exists rs,
       search_documents (fst (add_documents __init__ demo_corpus)) demo_query 0 = Ok rs
       /\ List.length rs = List.length demo_corpus
       /\ map rank rs = seq 1 (List.length demo_corpus)
       /\ Permutation (map document rs) demo_corpus
       /\ StronglySorted
            (fun r1 r2 => (similarity_score r2 <= similarity_score r1)%R) rs.
Proof.
  split; [discriminate |]. split; [reflexivity |].
  apply (search_top_k_zero __init__ demo_corpus demo_query);
    [discriminate | reflexivity].
Defined.

(** * Further properties of the code *)

(** ** Checks of the new definitions *)

Example format_04d_pads : Api.format_04d 42 = "0042" /\ Api.format_04d 4321 = "4321".
Proof. split; reflexivity. Qed.

Example project_id_of_first : Api.project_id_of 1 = "proj_0001".
Proof. reflexivity. Qed.

Example split_on_whitespace :
  PromptEngineering.split "  Explain   machine
learning " EmptyString = ["Explain"; "machine"; "learning"].
Proof. reflexivity. Qed.

Example contains_substring :
  PromptEngineering.contains "exact" "be exactly right" = true
  /\ PromptEngineering.contains "xml" "json only" = false.
Proof. split; reflexivity. Qed.

(** The sample prompt of [demonstrate_techniques]. *)
Example sample_prompt_analysis :
  let a := PromptEngineering.analyze_prompt_effectiveness
             "Write a blog post about AI in healthcare" in
  total a = 2
  /\ PromptEngineering.suggestions a
     = [ "Consider adding more context for clarity";
         "Consider using few-shot examples";
         "Add specific output format requirements";
         "Review prompt clarity and specificity" ].
Proof. split; vm_compute; reflexivity. Qed.

Example template_lookup :
  PromptEngineering.generate_prompt_template "generation" "role_playing"
  = "You are {role} with {expertise}. {task_description}"
  /\ PromptEngineering.generate_prompt_template "classification" "role_playing"
     = "Custom prompt template for your specific needs".
Proof. split; reflexivity. Qed.

Example demo_app_project :
  Api.get_project demo_app "proj_0001" = Api.Response demo_project.
Proof. reflexivity. Qed.

(** ** Which documents a search returns *)

Lemma StronglySorted_app_cross {A : Type} (R : A -> A -> Prop) (l1 l2 : list A) :
  StronglySorted R (l1 ++ l2) ->
  forall x y, In x l1 -> In y l2 -> R x y.
Proof.
  induction l1 as [| a l1 IH]; simpl; intros Hs x y Hx Hy; [contradiction |].
  inversion Hs as [| ? ? Hs' Hall]; subst.
  destruct Hx as [<- | Hx].
  - rewrite Forall_forall in Hall. apply Hall. apply in_or_app. right. exact Hy.
  - apply IH; assumption.
Qed.

Lemma argsort_NoDup (a : list R) : NoDup (Numpy.argsort a).
Proof.
  apply (Permutation_NoDup (Permutation_sym (argsort_perm a))).
  apply seq_NoDup.
Qed.

(** The indices left out by the ranking score no more than those kept. *)
Lemma top_indices_highest (sims : list R) (k : Z) (i j : nat) :
  In i (top_indices sims k) ->
  j < List.length sims ->
  ~ In j (top_indices sims k) ->
  (nth j sims 0 <= nth i sims 0)%R.
Proof.
  unfold top_indices, Numpy.reversed. intros Hi Hj Hnj.
  destruct (slice_from_suffix (- k) (Numpy.argsort sims)) as [pre Hpre].
  apply in_rev in Hi. rewrite <- in_rev in Hnj.
  assert (Hin : In j (Numpy.argsort sims)).
  { apply (Permutation_in _ (Permutation_sym (argsort_perm sims))).
    apply in_seq. lia. }
  rewrite Hpre in Hin. apply in_app_or in Hin.
  destruct Hin as [Hin | Hin]; [| contradiction].
  apply before_le.
  apply (StronglySorted_app_cross (before sims) pre
           (Numpy.slice_from (- k) (Numpy.argsort sims))); try assumption.
  rewrite <- Hpre. apply argsort_sorted.
Qed.

Lemma top_indices_NoDup (sims : list R) (k : Z) : NoDup (top_indices sims k).
Proof.
  unfold top_indices, Numpy.reversed.
  destruct (slice_from_suffix (- k) (Numpy.argsort sims)) as [pre Hpre].
  pose proof (argsort_NoDup sims) as H. rewrite Hpre in H.
  apply NoDup_app_remove_l in H.
  apply NoDup_rev. exact H.
Qed.

(** X1: on a loaded corpus and for any [top_k], no document position is
    returned twice, and every document left out scores no more than every
    document returned. *)
Theorem search_returns_highest_scores (self : RAGDemo) (docs : list string)
    (q : string) (k : Z) :
  snd (add_documents self docs) = Ok tt ->
  let sims := map (score docs q) docs in
  exists rs indices,
    search_documents (fst (add_documents self docs)) q k = Ok rs
    /\ Forall2 (at_index docs sims) rs indices
    /\ NoDup indices
    /\ forall i j,
         In i indices -> j < List.length docs -> ~ In j indices ->
         (nth j sims 0 <= nth i sims 0)%R.
Proof.
  intros H sims.
  destruct (search_documents_loaded self docs q k H) as (rs & Hrun & Hrel & _).
  exists rs, (top_indices sims k).
  split; [exact Hrun |]. split; [exact Hrel |].
  split; [apply top_indices_NoDup |].
  intros i j Hi Hj Hnj. apply (top_indices_highest sims k); try assumption.
  unfold sims. rewrite length_map. exact Hj.
Qed.

Lemma slice_from_positive {A : Type} (s : Z) (l : list A) :
  (0 < s)%Z ->
  List.length (Numpy.slice_from s l) = List.length l - Z.to_nat s.
Proof.
  intros Hs. unfold Numpy.slice_from.
  destruct (Z.ltb_spec s 0); [lia |].
  rewrite length_skipn. lia.
Qed.

(** X2: a negative [top_k] raises no error: the slice [[-top_k:]] then
    drops the |top_k| lowest-scoring documents, and the search returns the
    |C| - |top_k| others (none when |top_k| is |C| or more): the results
    are that many different documents, ordered by score, and every
    document left out scores no more than every document returned. *)
Theorem search_negative_top_k (self : RAGDemo) (docs : list string)
    (q : string) (k : Z) :
  snd (add_documents self docs) = Ok tt ->
  (k < 0)%Z ->
  let sims := map (score docs q) docs in
  exists rs indices,
    search_documents (fst (add_documents self docs)) q k = Ok rs
    /\ List.length rs = List.length docs - Z.to_nat (- k)
    /\ Forall2 (at_index docs sims) rs indices
    /\ NoDup indices
    /\ (forall i j,
          In i indices -> j < List.length docs -> ~ In j indices ->
          (nth j sims 0 <= nth i sims 0)%R)
    /\ StronglySorted
         (fun r1 r2 => (similarity_score r2 <= similarity_score r1)%R) rs.
Proof.
  intros H Hk sims.
  destruct (search_documents_loaded self docs q k H) as (rs & Hrun & Hrel & _).
  fold sims in Hrel.
  exists rs, (top_indices sims k). split; [exact Hrun |].
  split.
  { rewrite (Forall2_length Hrel). unfold top_indices, Numpy.reversed.
    rewrite length_rev, slice_from_positive, argsort_length by lia.
    unfold sims. rewrite length_map. reflexivity. }
  split; [exact Hrel |].
  split; [apply top_indices_NoDup |].
  split; [| apply (results_sorted docs sims k); exact Hrel].
  intros i j Hi Hj Hnj. apply (top_indices_highest sims k); try assumption.
  unfold sims. rewrite length_map. exact Hj.
Qed.

(** ** What of the query matters *)

Lemma lower_ascii_idempotent (c : ascii) :
  Text.lower_ascii (Text.lower_ascii c) = Text.lower_ascii c.
Proof.
  destruct c as [[] [] [] [] [] [] [] []]; reflexivity.
Qed.

Lemma lower_idempotent (s : string) : Text.lower (Text.lower s) = Text.lower s.
Proof.
  induction s as [| c s IH]; simpl; [reflexivity |].
  rewrite lower_ascii_idempotent, IH. reflexivity.
Qed.

Lemma analyze_lower (s : string) : Text.analyze (Text.lower s) = Text.analyze s.
Proof. unfold Text.analyze. rewrite lower_idempotent. reflexivity. Qed.

(** The search reads the query only through its term counts on the fitted
    vocabulary. *)
Lemma search_documents_counts (self : RAGDemo) (q1 q2 : string) (k : Z) :
  (forall vocab, Tfidf.vocabulary_ (vectorizer self) = Some vocab ->
                 Text.count_row vocab q1 = Text.count_row vocab q2) ->
  search_documents self q1 k = search_documents self q2 k.
Proof.
  intros H. unfold search_documents, query_similarities, Tfidf.transform.
  destruct (documents self); [reflexivity |].
  destruct (Tfidf.vocabulary_ (vectorizer self)) as [vocab |]; [| reflexivity].
  destruct (Tfidf.idf_ (vectorizer self)) as [idfs |]; [| reflexivity].
  simpl. unfold Tfidf.tfidf_row. rewrite (H vocab eq_refl). reflexivity.
Qed.

(** X3: upper and lower case in the query make no difference to the
    search, in any state of the index. *)
Theorem search_ignores_query_case (self : RAGDemo) (q : string) (k : Z) :
  search_documents self (Text.lower q) k = search_documents self q k.
Proof.
  apply search_documents_counts. intros vocab _.
  unfold Text.count_row. rewrite analyze_lower. reflexivity.
Qed.

(** X4: on a loaded corpus two queries with the same count of every
    vocabulary term get the same results: stop words, punctuation, word
    order and words outside the vocabulary do not matter. *)
Theorem search_reads_vocabulary_counts (self : RAGDemo) (docs : list string)
    (q1 q2 : string) (k : Z) :
  snd (add_documents self docs) = Ok tt ->
  (forall t, In t (Text.build_vocabulary docs) ->
             count_occ string_dec (Text.analyze q1) t
             = count_occ string_dec (Text.analyze q2) t) ->
  search_documents (fst (add_documents self docs)) q1 k
  = search_documents (fst (add_documents self docs)) q2 k.
Proof.
  intros H Hc. apply search_documents_counts.
  rewrite (add_documents_state _ _ H). simpl. intros vocab [= <-].
  unfold Text.count_row. apply map_ext_in. exact Hc.
Qed.

(** ** Shared terms and positive scores *)

Lemma insert_term_in (t x : string) (v : list string) :
  In x (Text.insert_term t v) <-> x = t \/ In x v.
Proof.
  induction v as [| u v IH]; simpl.
  - intuition.
  - destruct (String.compare t u) eqn:E; simpl.
    + apply String.compare_eq_iff in E. subst u. intuition.
    + intuition.
    + rewrite IH. intuition.
Qed.

Lemma insert_terms_in (ts : list string) (x : string) (v : list string) :
  In x (fold_left (fun v' t => Text.insert_term t v') ts v) <-> In x ts \/ In x v.
Proof.
  revert v. induction ts as [| t ts IH]; intros v; simpl.
  - intuition.
  - rewrite IH, insert_term_in. intuition.
Qed.

Lemma build_vocabulary_in_acc (docs : list string) (x : string) (v : list string) :
  In x (fold_left
          (fun v doc => fold_left (fun v' t => Text.insert_term t v') (Text.analyze doc) v)
          docs v)
  <-> (exists d, In d docs /\ In x (Text.analyze d)) \/ In x v.
Proof.
  revert v. induction docs as [| d docs IH]; intros v; simpl.
  - split; [auto | intros [(d & [] & _) | H]; exact H].
  - rewrite IH, insert_terms_in. split.
    + intros [(d' & Hd' & Hx) | [Hx | Hx]]; eauto.
    + intros [(d' & [<- | Hd'] & Hx) | Hx]; eauto.
Qed.

(** The vocabulary holds exactly the terms the analyzer finds in the
    documents. *)
Lemma build_vocabulary_in (docs : list string) (x : string) :
  In x (Text.build_vocabulary docs) <-> exists d, In d docs /\ In x (Text.analyze d).
Proof.
  unfold Text.build_vocabulary. rewrite build_vocabulary_in_acc.
  split; [intros [H | []]; exact H | auto].
Qed.

Section Shared.
Local Open Scope R_scope.

Lemma combine_map_same {A B C : Type} (f : A -> B) (g : A -> C) (l : list A) :
  combine (map f l) (map g l) = map (fun x => (f x, g x)) l.
Proof. induction l as [| x l IH]; simpl; [reflexivity | rewrite IH; reflexivity]. Qed.

Lemma weigh_as_map (docs : list string) (text : string) :
  Tfidf.weigh (fitted_idf docs) (Text.count_row (Text.build_vocabulary docs) text)
  = map (term_weight docs text) (Text.build_vocabulary docs).
Proof.
  unfold Tfidf.weigh, fitted_idf, Text.count_row, Text.document_frequency.
  rewrite map_map, combine_map_same, map_map. reflexivity.
Qed.

Lemma term_weight_nonneg (docs : list string) (text t : string) :
  0 <= term_weight docs text t.
Proof.
  unfold term_weight. apply Rmult_le_pos; [apply pos_INR |].
  pose proof (idf_ge_1 (List.length docs) _ (filter_length_le
    (fun doc => (0 <? count_occ string_dec (Text.analyze doc) t)%nat) docs)).
  lra.
Qed.

Lemma term_weight_pos (docs : list string) (text t : string) :
  0 < term_weight docs text t <-> In t (Text.analyze text).
Proof.
  unfold term_weight.
  pose proof (idf_ge_1 (List.length docs) _ (filter_length_le
    (fun doc => (0 <? count_occ string_dec (Text.analyze doc) t)%nat) docs)) as Hidf.
  rewrite (count_occ_In string_dec). split.
  - intros H. destruct (count_occ string_dec (Text.analyze text) t); [| lia].
    simpl in H. lra.
  - intros H. apply Rmult_lt_0_compat; [| lra].
    apply lt_0_INR. lia.
Qed.

(** Normalisation multiplies every entry by one positive factor. *)
Lemma normalize_scale (v : list R) :
  exists s, 0 < s /\ Tfidf.normalize v = map (fun x => x * s) v.
Proof.
  unfold Tfidf.normalize.
  destruct (Req_dec_T (Tfidf.sum_squares v) 0) as [Hz | Hne].
  - exists 1. split; [lra |].
    rewrite <- (map_id v) at 1. apply map_ext. intros x. lra.
  - exists (/ sqrt (Tfidf.sum_squares v)). split.
    + apply Rinv_0_lt_compat.
      pose proof (sqrt_pos (Tfidf.sum_squares v)).
      pose proof (sqrt_sum_squares_neq_0 v Hne). lra.
    + reflexivity.
Qed.

Lemma dot_map_map {A : Type} (f g : A -> R) (l : list A) :
  Tfidf.dot (map f l) (map g l) = fold_right Rplus 0 (map (fun t => f t * g t) l).
Proof.
  unfold Tfidf.dot. rewrite combine_map_same, map_map. reflexivity.
Qed.

Lemma sum_nonneg {A : Type} (f : A -> R) (l : list A) :
  (forall t, 0 <= f t) -> 0 <= fold_right Rplus 0 (map f l).
Proof.
  intros H. induction l as [| x l IH]; simpl; [lra |].
  specialize (H x). lra.
Qed.

Lemma sum_pos {A : Type} (f : A -> R) (l : list A) (t : A) :
  (forall x, 0 <= f x) -> In t l -> 0 < f t -> 0 < fold_right Rplus 0 (map f l).
Proof.
  intros H Hin Ht. induction l as [| x l IH]; simpl; [contradiction |].
  pose proof (sum_nonneg f l H) as Hl.
  destruct Hin as [-> | Hin]; [lra |].
  specialize (IH Hin). specialize (H x). lra.
Qed.

Lemma sum_zero {A : Type} (f : A -> R) (l : list A) :
  (forall x, In x l -> f x = 0) -> fold_right Rplus 0 (map f l) = 0.
Proof.
  induction l as [| x l IH]; simpl; intros H; [reflexivity |].
  rewrite (H x) by auto. rewrite IH by auto. lra.
Qed.

(** The score as a sum over the vocabulary, up to a positive factor. *)
Lemma score_as_sum (docs : list string) (q d : string) :
  exists s, 0 < s /\
    score docs q d
    = fold_right Rplus 0
        (map (fun t => term_weight docs q t * term_weight docs d t * s)
             (Text.build_vocabulary docs)).
Proof.
  unfold score, vector_in, Tfidf.tfidf_row.
  rewrite !normalize_idempotent, !weigh_as_map.
  destruct (normalize_scale (map (term_weight docs q) (Text.build_vocabulary docs)))
    as (sq & Hsq & ->).
  destruct (normalize_scale (map (term_weight docs d) (Text.build_vocabulary docs)))
    as (sd & Hsd & ->).
  exists (sq * sd). split; [apply Rmult_lt_0_compat; assumption |].
  rewrite !map_map, dot_map_map.
  f_equal. apply map_ext. intros t. ring.
Qed.

Lemma score_nonneg (docs : list string) (q d : string) : 0 <= score docs q d.
Proof.
  destruct (score_as_sum docs q d) as (s & Hs & ->).
  apply sum_nonneg. intros t.
  pose proof (term_weight_nonneg docs q t). pose proof (term_weight_nonneg docs d t).
  apply Rmult_le_pos; [apply Rmult_le_pos; assumption | lra].
Qed.

Lemma score_pos_iff (docs : list string) (q d : string) :
  In d docs ->
  0 < score docs q d
  <-> exists t, In t (Text.analyze q) /\ In t (Text.analyze d).
Proof.
  intros Hd.
  destruct (score_as_sum docs q d) as (s & Hs & ->).
  assert (Hnn : forall t, 0 <= term_weight docs q t * term_weight docs d t * s).
  { intros t.
    pose proof (term_weight_nonneg docs q t). pose proof (term_weight_nonneg docs d t).
    apply Rmult_le_pos; [apply Rmult_le_pos; assumption | lra]. }
  split.
  - intros Hpos.
    destruct (existsb (fun t => if in_dec string_dec t (Text.analyze d) then true else false)
                (Text.analyze q)) eqn:E.
    + apply existsb_exists in E. destruct E as (t & Hq & Ht).
      destruct (in_dec string_dec t (Text.analyze d)); [| discriminate].
      exists t. split; assumption.
    + exfalso. rewrite sum_zero in Hpos; [lra |].
      intros t _.
      destruct (in_dec string_dec t (Text.analyze q)) as [Hq | Hq].
      * assert (Hnd : ~ In t (Text.analyze d)).
        { intros Hin.
          assert (Hex : existsb (fun t => if in_dec string_dec t (Text.analyze d)
                                          then true else false) (Text.analyze q) = true).
          { apply existsb_exists. exists t. split; [exact Hq |].
            destruct (in_dec string_dec t (Text.analyze d)); [reflexivity | contradiction]. }
          congruence. }
        assert (Hz : term_weight docs d t = 0).
        { pose proof (term_weight_nonneg docs d t) as H0.
          destruct (Rle_lt_or_eq_dec _ _ H0) as [Hlt | Heq]; [| symmetry; exact Heq].
          apply term_weight_pos in Hlt. contradiction. }
        rewrite Hz. ring.
      * assert (Hz : term_weight docs q t = 0).
        { pose proof (term_weight_nonneg docs q t) as H0.
          destruct (Rle_lt_or_eq_dec _ _ H0) as [Hlt | Heq]; [| symmetry; exact Heq].
          apply term_weight_pos in Hlt. contradiction. }
        rewrite Hz. ring.
  - intros (t & Hq & Ht).
    apply (sum_pos _ _ t Hnn).
    + apply build_vocabulary_in. exists d. split; assumption.
    + apply Rmult_lt_0_compat; [apply Rmult_lt_0_compat |];
        [apply term_weight_pos; exact Hq | apply term_weight_pos; exact Ht | exact Hs].
Qed.

End Shared.

(** X5: on a loaded corpus no score is negative, and a document scores
    more than 0 exactly when it shares a term with the query. *)
Theorem positive_score_iff_shared_term (self : RAGDemo) (docs : list string)
    (q : string) (i : nat) (d : string) :
  snd (add_documents self docs) = Ok tt ->
  nth_error docs i = Some d ->
  exists sims s,
    query_similarities (fst (add_documents self docs)) q = Ok sims
    /\ nth_error sims i = Some s
    /\ (0 <= s)%R
    /\ ((0 < s)%R <-> exists t, In t (Text.analyze q) /\ In t (Text.analyze d)).
Proof.
  intros H Hi.
  exists (map (score docs q) docs), (score docs q d).
  split; [apply query_similarities_loaded; exact H |].
  split; [rewrite nth_error_map, Hi; reflexivity |].
  split; [apply score_nonneg |].
  apply score_pos_iff. eapply nth_error_In. exact Hi.
Qed.

(** ** Dictionaries *)

Section DictFacts.

Context {V : Type}.
Implicit Types (d : dict V) (k : string) (v : V).

Lemma dict_get_set_same d k v : dict_get (dict_set d k v) k = Some v.
Proof.
  induction d as [| [k' v'] d IH]; simpl.
  - rewrite String.eqb_refl. reflexivity.
  - destruct (String.eqb k k') eqn:E; simpl; rewrite E; [reflexivity | exact IH].
Qed.

Lemma dict_get_set_other d k k' v :
  k' <> k -> dict_get (dict_set d k v) k' = dict_get d k'.
Proof.
  intros Hne. induction d as [| [k0 v0] d IH]; simpl.
  - destruct (String.eqb_spec k' k); [contradiction | reflexivity].
  - destruct (String.eqb_spec k k0) as [-> | Hk]; simpl.
    + destruct (String.eqb_spec k' k0); [contradiction | reflexivity].
    + destruct (String.eqb k' k0); [reflexivity | exact IH].
Qed.

Lemma dict_get_None d k : dict_get d k = None <-> ~ In k (dict_keys d).
Proof.
  induction d as [| [k' v'] d IH]; simpl; [intuition |].
  destruct (String.eqb_spec k k') as [-> | Hk].
  - split; [discriminate | intros H; exfalso; apply H; left; reflexivity].
  - rewrite IH. split; [intros H [E | Hin]; [congruence | auto] | intros H Hin; apply H; auto].
Qed.

Lemma dict_get_Some_in d k v : dict_get d k = Some v -> In (k, v) d.
Proof.
  induction d as [| [k' v'] d IH]; simpl; [discriminate |].
  destruct (String.eqb_spec k k') as [-> | Hk].
  - intros [= ->]. left. reflexivity.
  - intros H. right. apply IH. exact H.
Qed.

Lemma dict_set_fresh d k v :
  ~ In k (dict_keys d) -> dict_set d k v = d ++ [(k, v)].
Proof.
  induction d as [| [k' v'] d IH]; simpl; intros H; [reflexivity |].
  destruct (String.eqb_spec k k') as [-> | Hk].
  - exfalso. apply H. left. reflexivity.
  - rewrite IH by (intros Hin; apply H; right; exact Hin). reflexivity.
Qed.

Lemma dict_keys_set_present d k v :
  In k (dict_keys d) -> dict_keys (dict_set d k v) = dict_keys d.
Proof.
  induction d as [| [k' v'] d IH]; simpl; intros H; [contradiction |].
  destruct (String.eqb_spec k k') as [-> | Hk]; simpl; [reflexivity |].
  f_equal. apply IH. destruct H as [E | H]; [congruence | exact H].
Qed.

Lemma Forall_dict_set (P : string * V -> Prop) d k v :
  Forall P d -> P (k, v) -> Forall P (dict_set d k v).
Proof.
  intros Hd Hkv. induction Hd as [| [k' v'] d Hx Hd IH]; simpl.
  - repeat constructor. exact Hkv.
  - destruct (String.eqb_spec k k') as [-> | Hk]; constructor; assumption.
Qed.

(** After [d.update(other)] a key of [other] has the value given there,
    any other key the value it had. *)
Lemma dict_get_update d (other : dict V) k :
  NoDup (dict_keys other) ->
  dict_get (dict_update d other) k
  = match dict_get other k with
    | Some v => Some v
    | None => dict_get d k
    end.
Proof.
  unfold dict_update. revert d.
  induction other as [| [k1 v1] other IH]; intros d Hnd; simpl; [reflexivity |].
  inversion Hnd as [| ? ? Hk1 Hnd']; subst.
  rewrite IH by exact Hnd'.
  destruct (String.eqb_spec k k1) as [-> | Hk].
  - apply dict_get_None in Hk1. rewrite Hk1. apply dict_get_set_same.
  - destruct (dict_get other k); [reflexivity |].
    apply dict_get_set_other. exact Hk.
Qed.

End DictFacts.

(** ** Project identifiers *)

Lemma parse_zeros (n : nat) (s : string) :
  option_map Nat.of_uint (DecimalString.NilEmpty.uint_of_string (Api.zeros n ++ s))
  = option_map Nat.of_uint (DecimalString.NilEmpty.uint_of_string s).
Proof.
  induction n as [| n IH]; simpl; [reflexivity |].
  destruct (DecimalString.NilEmpty.uint_of_string (Api.zeros n ++ s)) as [u |];
    destruct (DecimalString.NilEmpty.uint_of_string s) as [u' |];
    simpl in *; try discriminate; try reflexivity.
  exact IH.
Qed.

(** Reading the digits of [format_04d n] as a number gives [n] back. *)
Lemma parse_format_04d (n : nat) :
  option_map Nat.of_uint (DecimalString.NilEmpty.uint_of_string (Api.format_04d n))
  = Some n.
Proof.
  unfold Api.format_04d. rewrite parse_zeros.
  unfold Api.decimal. rewrite DecimalString.NilEmpty.usu. simpl.
  rewrite DecimalNat.Unsigned.of_to. reflexivity.
Qed.

Lemma project_id_of_inj (n m : nat) :
  Api.project_id_of n = Api.project_id_of m -> n = m.
Proof.
  unfold Api.project_id_of. simpl. intros [= H].
  pose proof (parse_format_04d n) as Hn.
  rewrite H, parse_format_04d in Hn. congruence.
Qed.

(** ** The invariant of the application state *)

Lemma sample_docs_load : snd (add_documents __init__ Api.sample_docs) = Ok tt.
Proof. reflexivity. Qed.

Lemma rag_search_projects (app : Api.App) (request : RAGRequest.t) (now : string) :
  Api.projects_db (fst (Api.rag_search app request now)) = Api.projects_db app
  /\ Api.project_counter (fst (Api.rag_search app request now)) = Api.project_counter app.
Proof.
  unfold Api.rag_search.
  destruct (match documents (Api.rag_system app) with
            | [] => add_documents (Api.rag_system app) Api.sample_docs
            | _ :: _ => (Api.rag_system app, Ok tt)
            end) as [rag [u | e]]; simpl.
  - destruct (search_documents rag (RAGRequest.query request) (RAGRequest.top_k request));
      simpl; split; reflexivity.
  - split; reflexivity.
Qed.

Lemma rag_search_rag_system (app : Api.App) (request : RAGRequest.t) (now : string) :
  Api.rag_system app = __init__ \/ Api.rag_system app = loaded Api.sample_docs ->
  Api.rag_system (fst (Api.rag_search app request now)) = loaded Api.sample_docs.
Proof.
  intros Hrag. unfold Api.rag_search.
  assert (Hseed : match documents (Api.rag_system app) with
                  | [] => add_documents (Api.rag_system app) Api.sample_docs
                  | _ :: _ => (Api.rag_system app, Ok tt)
                  end = (loaded Api.sample_docs, Ok tt)).
  { destruct Hrag as [-> | ->].
    - change (documents __init__) with (@nil string).
      unfold loaded. rewrite (surjective_pairing (add_documents __init__ Api.sample_docs)).
      rewrite sample_docs_load. reflexivity.
    - unfold loaded at 1. rewrite add_documents_documents. reflexivity. }
  rewrite Hseed.
  destruct (search_documents (loaded Api.sample_docs) (RAGRequest.query request)
              (RAGRequest.top_k request)); reflexivity.
Qed.

Lemma project_id_fresh (c : nat) :
  ~ In (Api.project_id_of (c + 1)) (map Api.project_id_of (seq 1 c)).
Proof.
  intros Hin. apply in_map_iff in Hin. destruct Hin as (n & Heq & Hn).
  apply project_id_of_inj in Heq. apply in_seq in Hn. lia.
Qed.

Lemma reachable_invariant (app : Api.App) : Api.reachable app -> app_invariant app.
Proof.
  induction 1 as [| app request now _ IH Hvalid
                   | app request now1 now2 _ IH
                   | app project_id metrics now _ IH].
  - repeat split; [constructor | left; reflexivity].
  - destruct IH as (Hkeys & Hall & Hrag).
    destruct (rag_search_projects app request now) as [Hdb Hc].
    unfold app_invariant. rewrite Hdb, Hc.
    repeat split; try assumption.
    right. apply rag_search_rag_system. exact Hrag.
  - destruct IH as (Hkeys & Hall & Hrag).
    unfold app_invariant, Api.create_project. simpl.
    split; [| split; [| exact Hrag]].
    + rewrite dict_set_fresh by (rewrite Hkeys; apply project_id_fresh).
      unfold dict_keys in *. rewrite map_app, Hkeys. simpl.
      rewrite Nat.add_1_r, seq_S, map_app. reflexivity.
    + apply Forall_dict_set; [exact Hall |]. simpl. split; reflexivity.
  - destruct IH as (Hkeys & Hall & Hrag).
    unfold app_invariant, Api.update_project_metrics.
    destruct (dict_get (Api.projects_db app) project_id) as [p |] eqn:Eget; simpl.
    + apply dict_get_Some_in in Eget.
      split; [| split; [| exact Hrag]].
      * rewrite dict_keys_set_present; [exact Hkeys |].
        unfold dict_keys. apply in_map_iff. exists (project_id, p). split; auto.
      * apply Forall_dict_set; [exact Hall |].
        rewrite Forall_forall in Hall. apply (Hall _ Eget).
    + repeat split; assumption.
Qed.

(** ** The search endpoint *)

(** X6: from the start of the application on, every valid search request
    is answered with success: the five sample documents are loaded by the
    first request and stay, and the answer has min(top_k, 5) results
    ranked 1, 2, ... *)
Theorem rag_search_succeeds (app : Api.App) (request : RAGRequest.t) (now : string) :
  Api.reachable app ->
  RAGRequest.valid request = true ->
  exists rs,
    snd (Api.rag_search app request now)
    = Api.Response {| Api.rag_success := true;
                      Api.rag_query := RAGRequest.query request;
                      Api.rag_results := rs;
                      Api.rag_total_documents := 5;
                      Api.rag_timestamp := now |}
    /\ List.length rs = Nat.min (Z.to_nat (RAGRequest.top_k request)) 5
    /\ map rank rs = seq 1 (List.length rs)
    /\ documents (Api.rag_system (fst (Api.rag_search app request now)))
       = Api.sample_docs.
Proof.
  intros Hreach Hvalid.
  destruct (reachable_invariant app Hreach) as (_ & _ & Hrag).
  pose proof (rag_search_rag_system app request now Hrag) as Hafter.
  unfold RAGRequest.valid in Hvalid. apply andb_prop in Hvalid.
  destruct Hvalid as [Hlo Hhi]. apply Z.leb_le in Hlo. apply Z.leb_le in Hhi.
  destruct (search_documents_loaded __init__ Api.sample_docs
              (RAGRequest.query request) (RAGRequest.top_k request) sample_docs_load)
    as (rs & Hrun & Hrel & Hrank).
  fold (loaded Api.sample_docs) in Hrun.
  exists rs.
  split; [| split; [| split]].
  - unfold Api.rag_search.
    assert (Hseed : match documents (Api.rag_system app) with
                    | [] => add_documents (Api.rag_system app) Api.sample_docs
                    | _ :: _ => (Api.rag_system app, Ok tt)
                    end = (loaded Api.sample_docs, Ok tt)).
    { destruct Hrag as [-> | ->].
      - change (documents __init__) with (@nil string).
        unfold loaded. rewrite (surjective_pairing (add_documents __init__ Api.sample_docs)).
        rewrite sample_docs_load. reflexivity.
      - unfold loaded at 1. rewrite add_documents_documents. reflexivity. }
    rewrite Hseed, Hrun. cbn [snd].
    replace (documents (loaded Api.sample_docs)) with Api.sample_docs
      by (symmetry; apply add_documents_documents).
    reflexivity.
  - rewrite (Forall2_length Hrel), top_indices_length, length_map by lia.
    reflexivity.
  - exact Hrank.
  - rewrite Hafter. unfold loaded. apply add_documents_documents.
Qed.

(** ** Projects *)

(** A stored project is stored under its own id, which is the id of a
    counter value from 1 to the current one. *)
Lemma stored_project_id (app : Api.App) (project_id : string) (p : Project.t) :
  app_invariant app ->
  dict_get (Api.projects_db app) project_id = Some p ->
  Project.id p = project_id
  /\ exists n, 1 <= n <= Api.project_counter app
               /\ project_id = Api.project_id_of n.
Proof.
  intros (Hkeys & Hall & _) Eget.
  apply dict_get_Some_in in Eget. split.
  - rewrite Forall_forall in Hall. apply (Hall _ Eget).
  - assert (Hin : In project_id (dict_keys (Api.projects_db app))).
    { unfold dict_keys. apply in_map_iff. exists (project_id, p). split; auto. }
    rewrite Hkeys in Hin. apply in_map_iff in Hin.
    destruct Hin as (n & <- & Hn). apply in_seq in Hn.
    exists n. split; [lia | reflexivity].
Qed.

(** X7: two counter values never give the same project id, also beyond
    9999 where the id grows longer than four digits. *)
Theorem project_id_of_injective (n m : nat) :
  Api.project_id_of n = Api.project_id_of m -> n = m.
Proof. apply project_id_of_inj. Qed.

(** X8: a project just created is found under the id it was given, which
    is the id of the incremented counter. *)
Theorem created_project_is_stored (app : Api.App) (request : ProjectCreateRequest.t)
    (now1 now2 : string) :
  exists project,
    snd (Api.create_project app request now1 now2) = Api.Response project
    /\ Project.id project = Api.project_id_of (Api.project_counter app + 1)
    /\ Api.get_project (fst (Api.create_project app request now1 now2))
         (Project.id project) = Api.Response project.
Proof.
  eexists. split; [reflexivity |]. split; [reflexivity |].
  unfold Api.get_project, Api.create_project. simpl.
  rewrite dict_get_set_same. reflexivity.
Qed.

(** X9: in every state the application reaches, [get_project] finds an
    id exactly when it is the id of a counter value from 1 to the current
    counter, and returns the project of that id; any other id gets 404. *)
Theorem get_project_found_iff (app : Api.App) (project_id : string) :
  Api.reachable app ->
  match Api.get_project app project_id with
  | Api.Response project =>
      Project.id project = project_id
      /\ exists n, 1 <= n <= Api.project_counter app
                   /\ project_id = Api.project_id_of n
  | Api.HTTPException status_code d =>
      status_code = 404 /\ d = Api.Message "Project not found"
      /\ forall n, 1 <= n <= Api.project_counter app ->
                   project_id <> Api.project_id_of n
  end.
Proof.
  intros Hreach.
  pose proof (reachable_invariant app Hreach) as Hinv.
  unfold Api.get_project.
  destruct (dict_get (Api.projects_db app) project_id) as [p |] eqn:Eget.
  - apply (stored_project_id app project_id p Hinv Eget).
  - destruct Hinv as (Hkeys & _ & _).
    split; [reflexivity |]. split; [reflexivity |].
    intros n Hn ->. apply dict_get_None in Eget. apply Eget.
    rewrite Hkeys. apply in_map. apply in_seq. lia.
Qed.

(** X10: [list_projects] returns the projects in the order of their
    creation, with the ids of the counter values 1, 2, ... up to the
    current counter. *)
Theorem list_projects_in_creation_order (app : Api.App) :
  Api.reachable app ->
  exists projects,
    Api.list_projects app = Api.Response projects
    /\ map Project.id projects
       = map Api.project_id_of (seq 1 (Api.project_counter app)).
Proof.
  intros Hreach.
  destruct (reachable_invariant app Hreach) as (Hkeys & Hall & _).
  eexists. split; [reflexivity |].
  rewrite <- Hkeys. unfold dict_values, dict_keys. rewrite map_map.
  apply map_ext_in. intros item Hin.
  rewrite Forall_forall in Hall. apply (Hall _ Hin).
Qed.

(** X11: in every state the application reaches, the statistics report as
    many projects as the counter says, all of them active, either no
    document or the five sample documents, and six techniques. *)
Theorem stats_count_projects (app : Api.App) (now : string) :
  Api.reachable app ->
  exists stats,
    Api.get_api_stats app now = Api.Response stats
    /\ Api.total_projects stats = Api.project_counter app
    /\ Api.active_projects stats = Api.project_counter app
    /\ (Api.total_documents stats = 0 \/ Api.total_documents stats = 5)
    /\ Api.available_techniques stats = 6.
Proof.
  intros Hreach.
  destruct (reachable_invariant app Hreach) as (Hkeys & Hall & Hrag).
  assert (Hlen : List.length (Api.projects_db app) = Api.project_counter app).
  { rewrite <- (length_map fst). change (map fst (Api.projects_db app))
      with (dict_keys (Api.projects_db app)).
    rewrite Hkeys, length_map, length_seq. reflexivity. }
  eexists. split; [reflexivity |]. simpl.
  split; [exact Hlen |]. split; [| split; [| reflexivity]].
  - rewrite <- Hlen. unfold dict_values.
    rewrite <- (length_map snd (Api.projects_db app)). f_equal.
    apply forallb_filter_id. apply forallb_forall. intros p Hp.
    apply in_map_iff in Hp. destruct Hp as (item & <- & Hin).
    rewrite Forall_forall in Hall. destruct (Hall _ Hin) as [_ ->]. reflexivity.
  - destruct Hrag as [-> | ->]; [left; reflexivity | right].
    unfold loaded. rewrite add_documents_documents. reflexivity.
Qed.

(** X12: creating a project never replaces or changes a project that is
    already stored. *)
Theorem create_project_keeps_projects (app : Api.App)
    (request : ProjectCreateRequest.t) (now1 now2 : string)
    (project_id : string) (project : Project.t) :
  Api.reachable app ->
  Api.get_project app project_id = Api.Response project ->
  Api.get_project (fst (Api.create_project app request now1 now2)) project_id
  = Api.Response project.
Proof.
  intros Hreach Hget.
  pose proof (reachable_invariant app Hreach) as Hinv.
  unfold Api.get_project in *. unfold Api.create_project. simpl.
  destruct (dict_get (Api.projects_db app) project_id) as [p |] eqn:Eget;
    [| discriminate].
  destruct (stored_project_id app project_id p Hinv Eget) as (_ & n & Hn & ->).
  rewrite dict_get_set_other; [rewrite Eget; exact Hget |].
  intros Heq. apply project_id_of_inj in Heq. lia.
Qed.

(** X13: updating the metrics of an id that [get_project] does not find
    answers 404 and leaves the application as it was. *)
Theorem update_unknown_project (app : Api.App) (project_id : string)
    (metrics : dict Any) (now : string) :
  Api.get_project app project_id = Api.HTTPException 404 (Api.Message "Project not found") ->
  Api.update_project_metrics app project_id metrics now
  = (app, Api.HTTPException 404 (Api.Message "Project not found")).
Proof.
  unfold Api.get_project, Api.update_project_metrics.
  destruct (dict_get (Api.projects_db app) project_id); [discriminate | reflexivity].
Qed.

(** X14: after a metrics update the project has its other fields as
    before; its [last_updated] metric is the server's clock reading, also
    when the request carries a [last_updated] of its own; every other
    metric of the request is stored, and the metrics the request does not
    mention keep their values. *)
Theorem update_merges_metrics (app : Api.App) (project_id : string)
    (metrics : dict Any) (now : string) (project : Project.t) :
  Api.get_project app project_id = Api.Response project ->
  NoDup (dict_keys metrics) ->
  exists updated,
    Api.get_project (fst (Api.update_project_metrics app project_id metrics now))
      project_id = Api.Response updated
    /\ updated = Api.with_metrics project (Project.performance_metrics updated)
    /\ forall key,
         dict_get (Project.performance_metrics updated) key
         = if String.eqb key "last_updated" then Some (AStr now)
           else match dict_get metrics key with
                | Some value => Some value
                | None => dict_get (Project.performance_metrics project) key
                end.
Proof.
  unfold Api.get_project, Api.update_project_metrics.
  destruct (dict_get (Api.projects_db app) project_id) as [p |] eqn:Eget;
    [| discriminate].
  intros [= ->] Hnd. simpl. rewrite dict_get_set_same.
  eexists. split; [reflexivity |]. split; [reflexivity |].
  intros key. simpl.
  destruct (String.eqb_spec key "last_updated") as [-> | Hk].
  - apply dict_get_set_same.
  - rewrite dict_get_set_other by exact Hk.
    apply dict_get_update. exact Hnd.
Qed.

(** X15: a metrics update adds and removes no project, leaves the counter
    alone and changes no project other than the one addressed. *)
Theorem update_keeps_other_projects (app : Api.App) (project_id : string)
    (metrics : dict Any) (now : string) :
  let app' := fst (Api.update_project_metrics app project_id metrics now) in
  dict_keys (Api.projects_db app') = dict_keys (Api.projects_db app)
  /\ Api.project_counter app' = Api.project_counter app
  /\ forall other, other <> project_id ->
       Api.get_project app' other = Api.get_project app other.
Proof.
  unfold Api.update_project_metrics, Api.get_project.
  destruct (dict_get (Api.projects_db app) project_id) as [p |] eqn:Eget; simpl.
  - split; [| split; [reflexivity |]].
    + apply dict_keys_set_present.
      apply dict_get_Some_in in Eget.
      unfold dict_keys. apply in_map_iff. exists (project_id, p). split; auto.
    + intros other Hne. rewrite dict_get_set_other by exact Hne. reflexivity.
  - repeat split; reflexivity.
Qed.

(** ** Prompt analysis *)

Section PromptFacts.

Import PromptEngineering.

Lemma is_space_lower (c : ascii) : is_space (Text.lower_ascii c) = is_space c.
Proof. destruct c as [[] [] [] [] [] [] [] []]; reflexivity. Qed.

Lemma flush_length (w : string) :
  List.length (flush w) = match w with EmptyString => 0 | String _ _ => 1 end.
Proof. destruct w; reflexivity. Qed.

Lemma append_char_nonempty (w : string) (c : ascii) :
  exists c' w', (w ++ String c EmptyString)%string = String c' w'.
Proof. destruct w as [| a w]; simpl; eauto. Qed.

Lemma split_lower_length (s w1 w2 : string) :
  List.length (flush w1) = List.length (flush w2) ->
  List.length (split (Text.lower s) w1) = List.length (split s w2).
Proof.
  revert w1 w2. induction s as [| c s IH]; intros w1 w2 Hw; simpl; [exact Hw |].
  rewrite is_space_lower. destruct (is_space c).
  - rewrite !length_app, Hw. f_equal. apply IH. reflexivity.
  - apply IH. rewrite !flush_length.
    destruct (append_char_nonempty w1 (Text.lower_ascii c)) as (c1 & r1 & ->).
    destruct (append_char_nonempty w2 c) as (c2 & r2 & ->).
    reflexivity.
Qed.

Lemma prefix_question (c : ascii) (s : string) :
  String.prefix "?" (String c s) = Ascii.eqb c "?".
Proof.
  change (String.prefix "?" (String c s))
    with (if ascii_dec "?" c then String.prefix "" s else false).
  destruct (ascii_dec "?" c) as [<- | Hne].
  - destruct s; reflexivity.
  - destruct (Ascii.eqb_spec c "?") as [-> | Hc]; [| reflexivity].
    exfalso. apply Hne. reflexivity.
Qed.

Lemma question_lower (c : ascii) :
  Ascii.eqb (Text.lower_ascii c) "?" = Ascii.eqb c "?".
Proof. destruct c as [[] [] [] [] [] [] [] []]; reflexivity. Qed.

Lemma contains_question_lower (s : string) :
  contains "?" (Text.lower s) = contains "?" s.
Proof.
  induction s as [| c s IH]; [reflexivity |].
  cbn [Text.lower contains].
  rewrite !prefix_question, question_lower, IH. reflexivity.
Qed.

(** X16: upper and lower case in the prompt make no difference to its
    analysis. *)
Theorem analysis_ignores_case (prompt : string) :
  analyze_prompt_effectiveness (Text.lower prompt)
  = analyze_prompt_effectiveness prompt.
Proof.
  unfold analyze_prompt_effectiveness.
  rewrite lower_idempotent, contains_question_lower.
  rewrite (split_lower_length prompt EmptyString EmptyString eq_refl).
  reflexivity.
Qed.

Lemma Qltb_spec (t : nat) (b : positive) :
  Qltb (Z.of_nat t # 5) (Z.pos b # 1) = (t <? 5 * Pos.to_nat b).
Proof.
  unfold Qltb, Qle_bool. cbn [Qnum Qden].
  destruct (Nat.ltb_spec t (5 * Pos.to_nat b));
    destruct (Z.leb_spec (Z.pos b * Z.pos 5) (Z.of_nat t * Z.pos 1));
    try reflexivity; lia.
Qed.

(** X17: the clarity score is between 2 and 5, the specificity and
    constraint scores at most 5, the examples score at most 3 and the
    format score at most 2; the overall score is a fifth of their sum, so
    it lies between 0.4 and 4 and never reaches 5. *)
Theorem analysis_score_bounds (prompt : string) :
  let a := analyze_prompt_effectiveness prompt in
  2 <= clarity_score a <= 5
  /\ specificity_score a <= 5
  /\ constraint_score a <= 5
  /\ examples_score a <= 3
  /\ format_score a <= 2
  /\ overall_score a = (Z.of_nat (total a) # 5)%Q
  /\ 2 <= total a <= 20
  /\ (2 # 5 <= overall_score a)%Q /\ (overall_score a <= 4 # 1)%Q.
Proof.
  unfold analyze_prompt_effectiveness, total.
  cbn [clarity_score specificity_score constraint_score examples_score
       format_score overall_score].
  repeat match goal with
         | |- context [if ?b then _ else _] => destruct b
         end;
    cbn; unfold Qle; cbn; repeat split; lia.
Qed.

Lemma clarity_score_2 (prompt : string) :
  clarity_score (analyze_prompt_effectiveness prompt) = 2
  <-> List.length (split prompt EmptyString) < 50.
Proof.
  unfold analyze_prompt_effectiveness. cbn [clarity_score].
  destruct (Nat.ltb_spec (List.length (split prompt EmptyString)) 50);
    [split; [intros _; assumption | reflexivity] |].
  destruct (List.length (split prompt EmptyString) <? 200); split; intros; try discriminate; lia.
Qed.

Lemma suggestions_shape (prompt : string) :
  let a := analyze_prompt_effectiveness prompt in
  suggestions a
  = (if clarity_score a =? 2
     then ["Consider adding more context for clarity"] else [])
    ++ (if total a <? 15
        then ["Consider using few-shot examples";
              "Add specific output format requirements"] else [])
    ++ (if total a <? 10
        then ["Review prompt clarity and specificity"] else []).
Proof.
  intros a.
  assert (Hc : (clarity_score a =? 2)
               = (List.length (split prompt EmptyString) <? 50)).
  { destruct (Nat.eqb_spec (clarity_score a) 2) as [E | E];
      destruct (Nat.ltb_spec (List.length (split prompt EmptyString)) 50) as [L | L];
      try reflexivity; exfalso.
    - apply clarity_score_2 in E. lia.
    - apply E. apply clarity_score_2. exact L. }
  rewrite Hc.
  change 15 with (5 * Pos.to_nat 3). change 10 with (5 * Pos.to_nat 2).
  rewrite <- !Qltb_spec.
  reflexivity.
Qed.

(** X18: the suggestions follow the scores: the one about context is
    given exactly to prompts of fewer than 50 words, the two about
    few-shot examples and output format exactly when the five scores sum
    to less than 15, the review exactly when they sum to less than 10;
    there is no suggestion exactly for a prompt of 50 words or more whose
    scores sum to 15 or more. *)
Theorem suggestions_follow_scores (prompt : string) :
  let a := analyze_prompt_effectiveness prompt in
  (In "Consider adding more context for clarity" (suggestions a)
   <-> List.length (split prompt EmptyString) < 50)
  /\ (In "Consider using few-shot examples" (suggestions a) <-> total a < 15)
  /\ (In "Add specific output format requirements" (suggestions a) <-> total a < 15)
  /\ (In "Review prompt clarity and specificity" (suggestions a) <-> total a < 10)
  /\ (suggestions a = [] <-> 50 <= List.length (split prompt EmptyString) /\ 15 <= total a).
Proof.
  pose proof (suggestions_shape prompt) as Hs. cbv zeta in Hs.
  pose proof (clarity_score_2 prompt) as Hc.
  intros a. fold a in Hs, Hc. rewrite Hs. clear Hs.
  destruct (Nat.eqb_spec (clarity_score a) 2) as [E | E];
    destruct (Nat.ltb_spec (total a) 15) as [L15 | L15];
    destruct (Nat.ltb_spec (total a) 10) as [L10 | L10];
    try lia; simpl;
    repeat split; intros; try lia; try discriminate;
    repeat match goal with
           | H : _ \/ _ |- _ => destruct H
           | H : False |- _ => destruct H
           | H : _ = _ :> string |- _ => discriminate H
           | H : _ /\ _ |- _ => destruct H
           end;
    try (apply Hc; assumption);
    try (exfalso; apply E; apply Hc; assumption);
    try (exfalso; apply Hc in E; lia);
    auto 6.
Qed.

Lemma prefix_trans (a b c : string) :
  String.prefix a b = true -> String.prefix b c = true -> String.prefix a c = true.
Proof.
  revert b c. induction a as [| x a IH]; intros b c Hab Hbc; [destruct c; reflexivity |].
  destruct b as [| y b]; [discriminate |].
  destruct c as [| z c]; [discriminate |].
  cbn [String.prefix] in *.
  destruct (ascii_dec x y) as [-> | _]; [| discriminate].
  destruct (ascii_dec y z) as [-> | _]; [| discriminate].
  apply (IH b c); assumption.
Qed.

(** A text that contains a word contains every prefix of the word. *)
Lemma contains_prefix (a b text : string) :
  String.prefix a b = true -> contains b text = true -> contains a text = true.
Proof.
  intros Hab. induction text as [| c text IH]; cbn [contains]; intros H.
  - rewrite orb_false_r in *. eapply prefix_trans; eassumption.
  - apply orb_true_iff in H. apply orb_true_iff.
    destruct H as [H | H]; [left; eapply prefix_trans; eassumption | right; auto].
Qed.

(** X19: keywords are searched as substrings, so a prompt with the
    constraint keyword [exactly] also counts as having the specificity
    keyword [exact]. *)
Theorem exactly_scores_twice (prompt : string) :
  contains "exactly" (Text.lower prompt) = true ->
  let a := analyze_prompt_effectiveness prompt in
  2 <= specificity_score a /\ 3 <= constraint_score a.
Proof.
  intros H.
  assert (Hexact : contains "exact" (Text.lower prompt) = true)
    by (apply (contains_prefix "exact" "exactly"); [reflexivity | exact H]).
  unfold analyze_prompt_effectiveness.
  cbn [specificity_score constraint_score any_in existsb].
  rewrite H, Hexact, !orb_true_r. cbn [orb].
  split; lia.
Qed.

(** X20: the word [format] is a keyword of the constraint analysis and
    of the format analysis: a prompt with it scores in both. *)
Theorem format_scores_twice (prompt : string) :
  contains "format" (Text.lower prompt) = true ->
  let a := analyze_prompt_effectiveness prompt in
  2 <= constraint_score a /\ format_score a = 2.
Proof.
  intros H.
  unfold analyze_prompt_effectiveness.
  cbn [format_score constraint_score any_in existsb].
  rewrite H. cbn [orb]. split; [lia | reflexivity].
Qed.

End PromptFacts.

(** ** The further properties at concrete inputs *)

Lemma search_returns_highest_scores_witness :
  snd (add_documents __init__ demo_corpus) = Ok tt
  /\ exists rs indices,
       search_documents (fst (add_documents __init__ demo_corpus)) demo_query 2 = Ok rs
       /\ Forall2 (at_index demo_corpus (map (score demo_corpus demo_query) demo_corpus))
            rs indices
       /\ NoDup indices
       /\ forall i j,
            In i indices -> j < List.length demo_corpus -> ~ In j indices ->
            (nth j (map (score demo_corpus demo_query) demo_corpus) 0
             <= nth i (map (score demo_corpus demo_query) demo_corpus) 0)%R.
Proof.
  split; [reflexivity |].
  apply (search_returns_highest_scores __init__ demo_corpus demo_query 2).
  reflexivity.
Defined.

Lemma search_negative_top_k_witness :
  snd (add_documents __init__ demo_corpus) = Ok tt
  /\ (-1 < 0)%Z
  /\ exists rs indices,
       search_documents (fst (add_documents __init__ demo_corpus)) demo_query (-1) = Ok rs
       /\ List.length rs = List.length demo_corpus - Z.to_nat (- (-1))
       /\ Forall2 (at_index demo_corpus (map (score demo_corpus demo_query) demo_corpus))
            rs indices
       /\ NoDup indices
       /\ (forall i j,
             In i indices -> j < List.length demo_corpus -> ~ In j indices ->
             (nth j (map (score demo_corpus demo_query) demo_corpus) 0
              <= nth i (map (score demo_corpus demo_query) demo_corpus) 0)%R)
       /\ StronglySorted
            (fun r1 r2 => (similarity_score r2 <= similarity_score r1)%R) rs.
Proof.
  split; [reflexivity |]. split; [lia |].
  apply (search_negative_top_k __init__ demo_corpus demo_query (-1));
    [reflexivity | lia].
Defined.

Lemma search_reads_vocabulary_counts_witness :
  snd (add_documents __init__ demo_corpus) = Ok tt
  /\ (forall t, In t (Text.build_vocabulary demo_corpus) ->
                count_occ string_dec (Text.analyze "healthcare AI") t
                = count_occ string_dec (Text.analyze demo_query) t)
  /\ search_documents (fst (add_documents __init__ demo_corpus)) "healthcare AI" 2
     = search_documents (fst (add_documents __init__ demo_corpus)) demo_query 2.
Proof.
  assert (Hc : forall t, In t (Text.build_vocabulary demo_corpus) ->
                         count_occ string_dec (Text.analyze "healthcare AI") t
                         = count_occ string_dec (Text.analyze demo_query) t).
  { intros t Hin. vm_compute in Hin.
    repeat (destruct Hin as [<- | Hin]; [vm_compute; reflexivity |]).
    destruct Hin. }
  split; [reflexivity |]. split; [exact Hc |].
  apply (search_reads_vocabulary_counts __init__ demo_corpus "healthcare AI" demo_query 2);
    [reflexivity | exact Hc].
Defined.

Lemma positive_score_iff_shared_term_witness :
  snd (add_documents __init__ demo_corpus) = Ok tt
  /\ nth_error demo_corpus 0 = Some healthcare_doc
  /\ exists sims s,
       query_similarities (fst (add_documents __init__ demo_corpus)) demo_query = Ok sims
       /\ nth_error sims 0 = Some s
       /\ (0 <= s)%R
       /\ ((0 < s)%R
           <-> exists t, In t (Text.analyze demo_query)
                         /\ In t (Text.analyze healthcare_doc)).
Proof.
  split; [reflexivity |]. split; [reflexivity |].
  apply (positive_score_iff_shared_term __init__ demo_corpus demo_query 0 healthcare_doc);
    reflexivity.
Defined.

Lemma rag_search_succeeds_witness :
  Api.reachable Api.startup
  /\ RAGRequest.valid {| RAGRequest.query := "AI"; RAGRequest.top_k := 3 |} = true
  /\ exists rs,
       snd (Api.rag_search Api.startup
              {| RAGRequest.query := "AI"; RAGRequest.top_k := 3 |}
              "2024-01-01T10:00:00")
       = Api.Response {| Api.rag_success := true;
                         Api.rag_query := "AI";
                         Api.rag_results := rs;
                         Api.rag_total_documents := 5;
                         Api.rag_timestamp := "2024-01-01T10:00:00" |}
       /\ List.length rs = Nat.min (Z.to_nat 3) 5
       /\ map rank rs = seq 1 (List.length rs)
       /\ documents (Api.rag_system
                       (fst (Api.rag_search Api.startup
                               {| RAGRequest.query := "AI"; RAGRequest.top_k := 3 |}
                               "2024-01-01T10:00:00")))
          = Api.sample_docs.
Proof.
  split; [apply Api.reach_startup |]. split; [reflexivity |].
  apply (rag_search_succeeds Api.startup
           {| RAGRequest.query := "AI"; RAGRequest.top_k := 3 |}
           "2024-01-01T10:00:00");
    [apply Api.reach_startup | reflexivity].
Defined.

Lemma project_id_of_injective_witness :
  Api.project_id_of 7 = Api.project_id_of 7 /\ 7 = 7.
Proof.
  split; [reflexivity |].
  apply (project_id_of_injective 7 7). reflexivity.
Defined.

Lemma demo_app_reachable : Api.reachable demo_app.
Proof. apply Api.reach_create_project, Api.reach_startup. Defined.

Lemma get_project_found_iff_witness :
  Api.reachable demo_app
  /\ match Api.get_project demo_app "proj_0001" with
     | Api.Response project =>
         Project.id project = "proj_0001"
         /\ exists n, 1 <= n <= Api.project_counter demo_app
                      /\ "proj_0001" = Api.project_id_of n
     | Api.HTTPException status_code d =>
         status_code = 404 /\ d = Api.Message "Project not found"
         /\ forall n, 1 <= n <= Api.project_counter demo_app ->
                      "proj_0001" <> Api.project_id_of n
     end.
Proof.
  split; [exact demo_app_reachable |].
  apply (get_project_found_iff demo_app "proj_0001"). exact demo_app_reachable.
Defined.

Lemma list_projects_in_creation_order_witness :
  Api.reachable demo_app
  /\ exists projects,
       Api.list_projects demo_app = Api.Response projects
       /\ map Project.id projects
          = map Api.project_id_of (seq 1 (Api.project_counter demo_app)).
Proof.
  split; [exact demo_app_reachable |].
  apply (list_projects_in_creation_order demo_app). exact demo_app_reachable.
Defined.

Lemma stats_count_projects_witness :
  Api.reachable demo_app
  /\ exists stats,
       Api.get_api_stats demo_app "2024-01-01T11:00:00" = Api.Response stats
       /\ Api.total_projects stats = Api.project_counter demo_app
       /\ Api.active_projects stats = Api.project_counter demo_app
       /\ (Api.total_documents stats = 0 \/ Api.total_documents stats = 5)
       /\ Api.available_techniques stats = 6.
Proof.
  split; [exact demo_app_reachable |].
  apply (stats_count_projects demo_app "2024-01-01T11:00:00").
  exact demo_app_reachable.
Defined.

Lemma create_project_keeps_projects_witness :
  Api.reachable demo_app
  /\ Api.get_project demo_app "proj_0001" = Api.Response demo_project
  /\ Api.get_project
       (fst (Api.create_project demo_app demo_request
               "2024-01-02T09:00:00" "2024-01-02T09:00:01"))
       "proj_0001"
     = Api.Response demo_project.
Proof.
  split; [exact demo_app_reachable |]. split; [reflexivity |].
  apply (create_project_keeps_projects demo_app demo_request
           "2024-01-02T09:00:00" "2024-01-02T09:00:01" "proj_0001" demo_project);
    [exact demo_app_reachable | reflexivity].
Defined.

Lemma update_unknown_project_witness :
  Api.get_project Api.startup "proj_0001"
  = Api.HTTPException 404 (Api.Message "Project not found")
  /\ Api.update_project_metrics Api.startup "proj_0001" demo_metrics
       "2024-01-01T12:00:00"
     = (Api.startup, Api.HTTPException 404 (Api.Message "Project not found")).
Proof.
  split; [reflexivity |].
  apply (update_unknown_project Api.startup "proj_0001" demo_metrics
           "2024-01-01T12:00:00").
  reflexivity.
Defined.

Lemma demo_metrics_keys : NoDup (dict_keys demo_metrics).
Proof.
  simpl. constructor.
  - intros [H | []]. discriminate H.
  - constructor; [intros [] | constructor].
Defined.

Lemma update_merges_metrics_witness :
  Api.get_project demo_app "proj_0001" = Api.Response demo_project
  /\ NoDup (dict_keys demo_metrics)
  /\ exists updated,
       Api.get_project
         (fst (Api.update_project_metrics demo_app "proj_0001" demo_metrics
                 "2024-01-01T12:00:00"))
         "proj_0001" = Api.Response updated
       /\ updated = Api.with_metrics demo_project (Project.performance_metrics updated)
       /\ forall key,
            dict_get (Project.performance_metrics updated) key
            = if String.eqb key "last_updated" then Some (AStr "2024-01-01T12:00:00")
              else match dict_get demo_metrics key with
                   | Some value => Some value
                   | None => dict_get (Project.performance_metrics demo_project) key
                   end.
Proof.
  split; [reflexivity |]. split; [exact demo_metrics_keys |].
  apply (update_merges_metrics demo_app "proj_0001" demo_metrics
           "2024-01-01T12:00:00" demo_project);
    [reflexivity | exact demo_metrics_keys].
Defined.

Lemma exactly_scores_twice_witness :
  PromptEngineering.contains "exactly" (Text.lower "Use EXACTLY three words") = true
  /\ 2 <= PromptEngineering.specificity_score
            (PromptEngineering.analyze_prompt_effectiveness "Use EXACTLY three words")
  /\ 3 <= PromptEngineering.constraint_score
            (PromptEngineering.analyze_prompt_effectiveness "Use EXACTLY three words").
Proof.
  split; [vm_compute; reflexivity |].
  apply (exactly_scores_twice "Use EXACTLY three words"). vm_compute. reflexivity.
Defined.

Lemma format_scores_twice_witness :
  PromptEngineering.contains "format" (Text.lower "Keep the format") = true
  /\ 2 <= PromptEngineering.constraint_score
            (PromptEngineering.analyze_prompt_effectiveness "Keep the format")
  /\ PromptEngineering.format_score
       (PromptEngineering.analyze_prompt_effectiveness "Keep the format") = 2.
Proof.
  split; [vm_compute; reflexivity |].
  apply (format_scores_twice "Keep the format"). vm_compute. reflexivity.
Defined.

(** ** Equal scores, empty vocabularies and rounding *)

(** C3, as amended: the results are ordered by score alone, a result of
    strictly higher score standing before one of lower score; equal
    scores are not ordered by corpus index, and on [tie_corpus] the
    document of the higher index is listed first. *)
Theorem higher_score_first :
  (forall (self : RAGDemo) (docs : list string) (q : string) (k : Z),
     snd (add_documents self docs) = Ok tt ->
     exists rs,
       search_documents (fst (add_documents self docs)) q k = Ok rs
       /\ forall p1 p2 r1 r2,
            nth_error rs p1 = Some r1 -> nth_error rs p2 = Some r2 ->
            (similarity_score r2 < similarity_score r1)%R -> p1 < p2)
  /\ exists s : R,
       search_documents (loaded tie_corpus) "apple" 2
       = Ok [ {| document := "apple cherry"; similarity_score := s; rank := 1 |};
              {| document := "apple banana"; similarity_score := s; rank := 2 |} ].
Proof.
  split; [| exact tie_search].
  intros self docs q k H.
  destruct (search_documents_loaded self docs q k H) as (rs & Hrun & Hrel & _).
  exists rs. split; [exact Hrun |].
  apply higher_score_earlier. apply (results_sorted _ _ _ _ Hrel).
Qed.

Lemma higher_score_first_witness :
  snd (add_documents __init__ demo_corpus) = Ok tt
  /\ exists rs,
       search_documents (fst (add_documents __init__ demo_corpus)) demo_query 2 = Ok rs
       /\ forall p1 p2 r1 r2,
            nth_error rs p1 = Some r1 -> nth_error rs p2 = Some r2 ->
            (similarity_score r2 < similarity_score r1)%R -> p1 < p2.
Proof.
  split; [reflexivity |].
  apply (proj1 higher_score_first __init__ demo_corpus demo_query 2%Z). reflexivity.
Defined.

(** The vocabulary is empty exactly when the analyzer finds no term in any
    document. *)
Lemma build_vocabulary_nil (docs : list string) :
  Text.build_vocabulary docs = [] <-> forall d, In d docs -> Text.analyze d = [].
Proof.
  split.
  - intros Hv d Hd. destruct (Text.analyze d) as [| t ts] eqn:E; [reflexivity |].
    exfalso.
    assert (Hin : In t (Text.build_vocabulary docs)).
    { apply build_vocabulary_in. exists d. split; [exact Hd |].
      rewrite E. left. reflexivity. }
    rewrite Hv in Hin. exact Hin.
  - intros Hall. destruct (Text.build_vocabulary docs) as [| t ts] eqn:E;
      [reflexivity |].
    exfalso.
    assert (Hin : In t (Text.build_vocabulary docs))
      by (rewrite E; left; reflexivity).
    apply build_vocabulary_in in Hin. destruct Hin as (d & Hd & Ht).
    rewrite (Hall d Hd) in Ht. exact Ht.
Qed.

Lemma add_documents_raises (self : RAGDemo) (docs : list string) :
  Text.build_vocabulary docs = [] ->
  snd (add_documents self docs) = Raise ValueError.
Proof.
  unfold add_documents, Tfidf.fit_transform. intros ->. reflexivity.
Qed.

(** C6, as amended: when every document of the corpus is reduced to no
    term by the analyzer (stop words only), [add_documents] raises the
    empty-vocabulary error; when some document has a term, the load
    succeeds, every search returns without an error, and a document of
    stop words only has similarity 0 to every query. *)
Theorem stop_word_document_scores_zero (self : RAGDemo) (docs : list string) :
  ((forall d, In d docs -> Text.analyze d = []) ->
   snd (add_documents self docs) = Raise ValueError)
  /\ ((exists d, In d docs /\ Text.analyze d <> []) ->
      snd (add_documents self docs) = Ok tt
      /\ forall (q : string) (k : Z) (i : nat) (d : string),
           nth_error docs i = Some d ->
           Text.analyze d = [] ->
           (exists rs, search_documents (fst (add_documents self docs)) q k = Ok rs)
           /\ exists sims,
                query_similarities (fst (add_documents self docs)) q = Ok sims
                /\ nth_error sims i = Some 0%R).
Proof.
  split.
  - intros Hall. apply add_documents_raises. apply build_vocabulary_nil. exact Hall.
  - intros (d0 & Hd0 & Hne).
    assert (H : snd (add_documents self docs) = Ok tt).
    { apply add_documents_ok_iff. intros Hv. apply Hne.
      apply (proj1 (build_vocabulary_nil docs) Hv d0 Hd0). }
    split; [exact H |].
    intros q k i d Hi Hd. split.
    + destruct (search_documents_loaded self docs q k H) as (rs & Hrun & _).
      exists rs. exact Hrun.
    + exists (map (score docs q) docs).
      split; [apply query_similarities_loaded; exact H |].
      rewrite nth_error_map, Hi. simpl.
      rewrite (score_zero_document docs q d Hd). reflexivity.
Qed.

Lemma stop_word_document_scores_zero_witness :
  ((forall d, In d ["the a of"; "of the"] -> Text.analyze d = [])
   /\ snd (add_documents __init__ ["the a of"; "of the"]) = Raise ValueError)
  /\ ((exists d, In d ["the a of"; "cats purr"] /\ Text.analyze d <> [])
      /\ snd (add_documents __init__ ["the a of"; "cats purr"]) = Ok tt
      /\ (exists rs,
            search_documents (fst (add_documents __init__ ["the a of"; "cats purr"]))
              "cats" 1 = Ok rs)
      /\ exists sims,
           query_similarities (fst (add_documents __init__ ["the a of"; "cats purr"]))
             "cats" = Ok sims
           /\ nth_error sims 0 = Some 0%R).
Proof.
  assert (H1 : forall d, In d ["the a of"; "of the"] -> Text.analyze d = []).
  { intros d [<- | [<- | []]]; reflexivity. }
  assert (H2 : exists d, In d ["the a of"; "cats purr"] /\ Text.analyze d <> []).
  { exists "cats purr". split; [right; left; reflexivity |].
    vm_compute. discriminate. }
  split.
  - split; [exact H1 |].
    apply (proj1 (stop_word_document_scores_zero __init__ ["the a of"; "of the"]) H1).
  - split; [exact H2 |].
    destruct (proj2 (stop_word_document_scores_zero __init__ ["the a of"; "cats purr"]) H2)
      as [Hok Hzero].
    split; [exact Hok |].
    apply (Hzero "cats" 1%Z 0 "the a of"); reflexivity.
Defined.




